(** * demo_iac: the Scaleway tool handlers, the completion client and the
      JSON endpoint, embedded from

      - [Docker/tools/scaleway_cli.py]  (module [scaleway_cli] below),
      - [Docker/langchain_agent.py]     (module [langchain_agent]),
      - [Docker/main.py]                (module [main]).

    Conventions of the embedding.

    - A Python [str] is a Rocq [string] holding the UTF-8 encoding of the
      text; a character is a maximal run "lead byte, continuation bytes".
    - Python values that reach the code (tool parameters, parsed JSON) are
      the type [pyvalue]: [None], [bool], [int], [str], [list] and [dict]
      with string keys, the dict as an association list in insertion
      order.  Floats are not represented.
    - A call either returns or raises: [outcome].  Code that talks to the
      outside world runs in [M], which also records the subprocesses
      started and the HTTP requests sent, in order.
    - The outside world (environment variables, the [scw] subprocess, the
      HTTP endpoint) and the library function [json.loads] are the fields
      of a [World]; every function that uses them takes the world as its
      first argument. *)

From Stdlib Require Import String Ascii List ZArith QArith Lia Bool DecimalString.
Import ListNotations.
Open Scope string_scope.
Open Scope Z_scope.

(* ================================================================== *)
(** * Python values and the builtins the code uses                    *)
(* ================================================================== *)

Module Py.

(** ** Exceptions *)

Inductive exn_class : Type :=
| AttributeError
| KeyError
| IndexError
| TypeError
| JSONDecodeError
| HTTPError
| ValidationError
| OtherException (name : string).

(** An instance of (a subclass of) [Exception]; [exn_msg] is [str(e)]. *)
Record exn : Type := Exn { exn_cls : exn_class; exn_msg : string }.

Inductive outcome (A : Type) : Type :=
| Returns (a : A)
| Raises (e : exn).
Arguments Returns {A} a.
Arguments Raises {A} e.

Definition obind {A B} (m : outcome A) (k : A -> outcome B) : outcome B :=
  match m with
  | Returns a => k a
  | Raises e => Raises e
  end.

Declare Scope py_scope.
Delimit Scope py_scope with py.
Notation "x <-- m ;; k" := (obind m (fun x => k))
  (at level 61, m at next level, right associativity) : py_scope.
Open Scope py_scope.

(** ** Values *)

#[warnings="-register-all"]
Inductive pyvalue : Type :=
| PNone
| PBool (b : bool)
| PInt (z : Z)
| PStr (s : string)
| PList (l : list pyvalue)
| PDict (d : list (string * pyvalue)).

Definition pydict : Type := list (string * pyvalue).

(** [type(v).__name__] *)
Definition type_name (v : pyvalue) : string :=
  match v with
  | PNone => "NoneType"
  | PBool _ => "bool"
  | PInt _ => "int"
  | PStr _ => "str"
  | PList _ => "list"
  | PDict _ => "dict"
  end.

(** [bool(v)], the test of [if v] and [if not v]. *)
Definition truthy (v : pyvalue) : bool :=
  match v with
  | PNone => false
  | PBool b => b
  | PInt z => negb (z =? 0)
  | PStr s => negb (s =? "")%string
  | PList l => match l with [] => false | _ => true end
  | PDict d => match d with [] => false | _ => true end
  end.

Fixpoint lookup {A} (k : string) (d : list (string * A)) : option A :=
  match d with
  | [] => None
  | (k', v) :: d' => if (k' =? k)%string then Some v else lookup k d'
  end.

(** [d.get(k, default)] on a dict. *)
Definition dict_get (d : pydict) (k : string) (default : pyvalue) : pyvalue :=
  match lookup k d with
  | Some v => v
  | None => default
  end.

(** [a == b].  [bool] is a subclass of [int]; lists compare element by
    element; dicts compare as mappings, whatever the insertion order. *)
Fixpoint py_eq (a b : pyvalue) {struct a} : bool :=
  match a, b with
  | PNone, PNone => true
  | PBool x, PBool y => Bool.eqb x y
  | PBool x, PInt y => (if x then 1 else 0) =? y
  | PInt x, PBool y => x =? (if y then 1 else 0)
  | PInt x, PInt y => x =? y
  | PStr x, PStr y => (x =? y)%string
  | PList x, PList y =>
      (fix all2 (x y : list pyvalue) {struct x} : bool :=
         match x, y with
         | [], [] => true
         | a' :: x', b' :: y' => py_eq a' b' && all2 x' y'
         | _, _ => false
         end) x y
  | PDict x, PDict y =>
      (length x =? length y)%nat &&
      (fix sub (x : list (string * pyvalue)) {struct x} : bool :=
         match x with
         | [] => true
         | (k, v) :: x' =>
             match lookup k y with
             | Some v' => py_eq v v'
             | None => false
             end && sub x'
         end) x
  | _, _ => false
  end.

(** ** Strings *)

Definition nl : string := String (ascii_of_nat 10) "".

Definition code (c : ascii) : nat := nat_of_ascii c.

(** A UTF-8 continuation byte, [10xxxxxx]. *)
Definition is_cont (c : ascii) : bool := ((128 <=? code c) && (code c <? 192))%nat.

(** The characters of a string: each lead byte with its continuation
    bytes. *)
Fixpoint chars_from (cur : string) (s : string) : list string :=
  match s with
  | EmptyString => [cur]
  | String c s' =>
      if is_cont c then chars_from (cur ++ String c "") s'
      else cur :: chars_from (String c "") s'
  end.

Definition chars (s : string) : list string :=
  match s with
  | EmptyString => []
  | String c s' => chars_from (String c "") s'
  end.

Definition bytes_of (l : list nat) : string :=
  string_of_list_ascii (map ascii_of_nat l).

(** The code points for which [str.isspace()] holds, UTF-8 encoded:
    U+0009..000D, U+001C..0020, U+0085, U+00A0, U+1680, U+2000..200A,
    U+2028, U+2029, U+202F, U+205F, U+3000. *)
Definition whitespace : list string :=
  map bytes_of
    (List.app
       [[9]; [10]; [11]; [12]; [13]; [28]; [29]; [30]; [31]; [32];
        [194; 133]; [194; 160]; [225; 154; 128]]
       (List.app
          (map (fun k => [226; 128; k])
               [128; 129; 130; 131; 132; 133; 134; 135; 136; 137; 138])
          [[226; 128; 168]; [226; 128; 169]; [226; 128; 175];
           [226; 129; 159]; [227; 128; 128]]))%nat.

Definition isspace (ch : string) : bool :=
  existsb (fun w => (w =? ch)%string) whitespace.

Fixpoint drop_space (l : list string) : list string :=
  match l with
  | [] => []
  | ch :: l' => if isspace ch then drop_space l' else l
  end.

(** [s.strip()] *)
Definition strip (s : string) : string :=
  String.concat "" (rev (drop_space (rev (drop_space (chars s))))).

(** [s.startswith(p)] *)
Definition startswith (s p : string) : bool := String.prefix p s.

Definition dquote : ascii := ascii_of_nat 34.

Definition hex_digit (n : nat) : ascii :=
  ascii_of_nat (if (n <? 10)%nat then 48 + n else 87 + n).

Definition repr_byte (quote : ascii) (c : ascii) : string :=
  let n := code c in
  if (Ascii.eqb c quote || Ascii.eqb c "\")%bool then String "\" (String c "")
  else if (n =? 9)%nat then "\t"
  else if (n =? 10)%nat then "\n"
  else if (n =? 13)%nat then "\r"
  else if ((n <? 32) || (n =? 127))%nat
       then String "\" (String "x" (String (hex_digit (n / 16)) (String (hex_digit (n mod 16)) "")))
  else String c "".

Fixpoint has_byte (c : ascii) (s : string) : bool :=
  match s with
  | EmptyString => false
  | String c' s' => Ascii.eqb c c' || has_byte c s'
  end.

Fixpoint flat_map_string (f : ascii -> string) (s : string) : string :=
  match s with
  | EmptyString => ""
  | String c s' => f c ++ flat_map_string f s'
  end.

(** [repr(s)] of a string: single quotes unless the text has a single and
    no double quote; backslash, the quote and ASCII control characters
    escaped; everything else, all non-ASCII text included, as it is. *)
Definition repr_str (s : string) : string :=
  let quote : ascii :=
    if (has_byte "'" s && negb (has_byte dquote s))%bool then dquote else "'"%char in
  String quote (flat_map_string (repr_byte quote) s ++ String quote "").

Definition str_of_Z (z : Z) : string := NilZero.string_of_int (Z.to_int z).

Definition str_of_nat (n : nat) : string := str_of_Z (Z.of_nat n).

(** [repr(v)] *)
Fixpoint repr (v : pyvalue) : string :=
  match v with
  | PNone => "None"
  | PBool true => "True"
  | PBool false => "False"
  | PInt z => str_of_Z z
  | PStr s => repr_str s
  | PList l =>
      "[" ++ String.concat ", " (map repr l) ++ "]"
  | PDict d =>
      "{" ++ String.concat ", "
               ((fix items (d : list (string * pyvalue)) : list string :=
                   match d with
                   | [] => []
                   | (k, v) :: d' => (repr_str k ++ ": " ++ repr v) :: items d'
                   end) d) ++ "}"
  end.

(** [str(v)], which is also what [f"{v}"] inserts. *)
Definition str (v : pyvalue) : string :=
  match v with
  | PStr s => s
  | _ => repr v
  end.

(** [f"{o}"] for the result of [os.getenv]. *)
Definition str_opt (o : option string) : string :=
  match o with
  | Some s => s
  | None => "None"
  end.

(** ** Attribute, item and iteration protocols *)

(** [v.get(k, default)]: only a dict has the method. *)
Definition get (v : pyvalue) (k : string) (default : pyvalue) : outcome pyvalue :=
  match v with
  | PDict d => Returns (dict_get d k default)
  | _ => Raises (Exn AttributeError
                   ("'" ++ type_name v ++ "' object has no attribute 'get'"))
  end.

(** [for x in v]: the items in order. *)
Definition iter (v : pyvalue) : outcome (list pyvalue) :=
  match v with
  | PList l => Returns l
  | PDict d => Returns (map (fun kv => PStr (fst kv)) d)
  | PStr s => Returns (map PStr (chars s))
  | _ => Raises (Exn TypeError ("'" ++ type_name v ++ "' object is not iterable"))
  end.

Definition not_subscriptable {A} (v : pyvalue) : outcome A :=
  Raises (Exn TypeError ("'" ++ type_name v ++ "' object is not subscriptable")).

(** [v[k]] with a string [k]. *)
Definition getitem_key (v : pyvalue) (k : string) : outcome pyvalue :=
  match v with
  | PDict d =>
      match lookup k d with
      | Some x => Returns x
      | None => Raises (Exn KeyError (repr_str k))
      end
  | PList _ => Raises (Exn TypeError "list indices must be integers or slices, not str")
  | PStr _ => Raises (Exn TypeError "string indices must be integers, not 'str'")
  | _ => not_subscriptable v
  end.

(** [v[0]] *)
Definition getitem_0 (v : pyvalue) : outcome pyvalue :=
  match v with
  | PList l =>
      match l with
      | x :: _ => Returns x
      | [] => Raises (Exn IndexError "list index out of range")
      end
  | PStr s =>
      match chars s with
      | ch :: _ => Returns (PStr ch)
      | [] => Raises (Exn IndexError "string index out of range")
      end
  | PDict _ => Raises (Exn KeyError "0")
  | _ => not_subscriptable v
  end.

(** The items of [sep.join(items)] when all of them are strings; the
    [TypeError] of [join] at the first one that is not. *)
Fixpoint str_items (i : nat) (items : list pyvalue) : outcome (list string) :=
  match items with
  | [] => Returns []
  | PStr s :: rest =>
      l <-- str_items (S i) rest ;;
      Returns (s :: l)
  | v :: _ =>
      Raises (Exn TypeError ("sequence item " ++ str_of_nat i ++
                             ": expected str instance, " ++ type_name v ++ " found"))
  end.

End Py.
Import Py.

(* ================================================================== *)
(** * The outside world and the effect monad                          *)
(* ================================================================== *)

(** What [subprocess.run(argv, capture_output=True, text=True)] does: the
    process is started and exits with a return code and its two streams,
    or the call itself raises (no such binary, no permission). *)
Inductive proc_outcome : Type :=
| Exited (returncode : Z) (stdout stderr : string)
| SpawnError (e : exn).

Record Message : Type := { role : string; content : string }.

(** The [payload] dict of [DeepSeekLLM._call]. *)
Record Payload : Type := {
  p_model : string;
  p_messages : list Message;
  p_temperature : Q;
  p_max_tokens : Z
}.

(** A [requests.Response]: status line, URL, and what [response.json()]
    does on the body. *)
Record Response : Type := {
  status_code : Z;
  reason : string;
  url : string;
  json : outcome pyvalue
}.

Inductive http_outcome : Type :=
| Responded (r : Response)
| PostError (e : exn).

Definition Headers : Type := list (string * string).

Record World : Type := {
  getenv : string -> option string;
  subprocess_run : list string -> proc_outcome;
  requests_post : string -> Headers -> Payload -> http_outcome;
  json_loads : string -> outcome pyvalue
}.

Inductive event : Type :=
| Subprocess (argv : list string)
| HttpPost (endpoint : string) (headers : Headers) (payload : Payload).

(** A computation: how it ends, and what it did to the world on the way. *)
Definition M (A : Type) : Type := (outcome A * list event)%type.

Definition ret {A} (a : A) : M A := (Returns a, []).
Definition raise {A} (e : exn) : M A := (Raises e, []).
Definition lift {A} (o : outcome A) : M A := (o, []).
Definition tell (ev : event) : M unit := (Returns tt, [ev]).

Definition bind {A B} (m : M A) (k : A -> M B) : M B :=
  match m with
  | (Returns a, t) => let (r, t') := k a in (r, List.app t t')
  | (Raises e, t) => (Raises e, t)
  end.

(** [try: m  except Exception as e: h e] *)
Definition try_except {A} (m : M A) (h : exn -> M A) : M A :=
  match m with
  | (Returns a, t) => (Returns a, t)
  | (Raises e, t) => let (r, t') := h e in (r, List.app t t')
  end.

Notation "x <- m ;; k" := (bind m (fun x => k))
  (at level 61, m at next level, right associativity) : py_scope.

Definition result_of {A} (m : M A) : outcome A := fst m.
Definition trace_of {A} (m : M A) : list event := snd m.

(** [raise_for_status] of the requests library: an [HTTPError] for the
    4xx and 5xx codes, nothing otherwise. *)
Definition raise_for_status (r : Response) : outcome unit :=
  if (400 <=? status_code r) && (status_code r <? 500) then
    Raises (Exn HTTPError (str_of_Z (status_code r) ++ " Client Error: " ++
                           reason r ++ " for url: " ++ url r))
  else if (500 <=? status_code r) && (status_code r <? 600) then
    Raises (Exn HTTPError (str_of_Z (status_code r) ++ " Server Error: " ++
                           reason r ++ " for url: " ++ url r))
  else Returns tt.

(* ================================================================== *)
(** * Docker/tools/scaleway_cli.py                                     *)
(* ================================================================== *)

Module scaleway_cli.

Section WithWorld.
Variable w : World.

(** [run_cli(command)].  The first line formats [' '.join(command)] for
    the log, which needs every item to be a string.  With [check=True] a
    non-zero return code raises [CalledProcessError], which is the one
    exception the function handles. *)
Definition run_cli (command : list pyvalue) : M string :=
  argv <- lift (str_items 0 command) ;;
  _ <- tell (Subprocess argv) ;;
  match subprocess_run w argv with
  | SpawnError e => raise e
  | Exited returncode out err =>
      if returncode =? 0 then
        let stdout := strip out in
        let stderr := strip err in
        ret (if truthy (PStr stdout) then stdout else stderr)
      else
        ret ("CLI Error: " ++
             (if truthy (PStr (strip err)) then strip err else strip out))
  end.

(** The inner loop of [validate_vpc]: is there a subnet whose ["cidr"]
    equals [cidr]? *)
Fixpoint subnet_matches (cidr : pyvalue) (subnets : list pyvalue) : outcome bool :=
  match subnets with
  | [] => Returns false
  | subnet :: rest =>
      c <-- get subnet "cidr" PNone ;;
      if py_eq c cidr then Returns true else subnet_matches cidr rest
  end.

(** The outer loop of [validate_vpc], with its two ways out. *)
Fixpoint scan_networks (cidr : pyvalue) (networks : list pyvalue) : outcome pyvalue :=
  match networks with
  | [] => Returns (PDict [("valid", PBool true)])
  | net :: rest =>
      subnets <-- get net "subnets" (PList []) ;;
      items <-- iter subnets ;;
      found <-- subnet_matches cidr items ;;
      if found then
        name <-- getitem_key net "name" ;;
        Returns (PDict [("valid", PBool false);
                        ("reason", PStr ("CIDR " ++ str cidr ++
                                         " already used in private network '" ++
                                         str name ++ "'"))])
      else scan_networks cidr rest
  end.

Definition vpc_command : list pyvalue :=
  [PStr "scw"; PStr "vpc"; PStr "vpc"; PStr "list";
   PStr ("project-id=" ++ str_opt (getenv w "SCW_DEFAULT_PROJECT_ID"));
   PStr "--output"; PStr "json"].

Definition validate_vpc (params : pydict) : M pyvalue :=
  let cidr := dict_get params "cidr" PNone in
  let region := dict_get params "region" (PStr "fr-par") in
  if negb (truthy cidr) then
    ret (PDict [("error", PStr "Missing 'cidr' parameter for VPC validation.")])
  else
    let command := vpc_command in
    output <- run_cli command ;;
    if startswith output "CLI Error" then
      ret (PDict [("error", PStr output)])
    else
      try_except
        (lift (networks <-- json_loads w output ;;
               items <-- iter networks ;;
               scan_networks cidr items))
        (fun e => ret (PDict [("error", PStr ("JSON parsing error: " ++ exn_msg e))])).

(** The loop of [validate_object_storage]. *)
Fixpoint scan_buckets (name region : pyvalue) (buckets : list pyvalue) : outcome pyvalue :=
  match buckets with
  | [] => Returns (PDict [("valid", PBool true)])
  | bucket :: rest =>
      n <-- get bucket "name" PNone ;;
      if py_eq n name then
        Returns (PDict [("valid", PBool false);
                        ("reason", PStr ("Bucket '" ++ str name ++
                                         "' already exists in region " ++
                                         str region))])
      else scan_buckets name region rest
  end.

Definition bucket_command (region : pyvalue) : list pyvalue :=
  [PStr "scw"; PStr "object"; PStr "bucket"; PStr "list";
   PStr "region"; region;
   PStr "--output"; PStr "json"].

Definition validate_object_storage (params : pydict) : M pyvalue :=
  let name := dict_get params "name" PNone in
  let region := dict_get params "region" (PStr "fr-par") in
  if negb (truthy name) then
    ret (PDict [("error", PStr "Missing 'name' parameter for bucket validation.")])
  else
    let command := bucket_command region in
    output <- run_cli command ;;
    if startswith output "CLI Error" then
      ret (PDict [("error", PStr output)])
    else
      try_except
        (lift (buckets <-- json_loads w output ;;
               items <-- iter buckets ;;
               scan_buckets name region items))
        (fun e => ret (PDict [("error", PStr ("JSON parsing error: " ++ exn_msg e))])).

Definition validate_resource (resource_type : pyvalue) (parameters : pydict) : M pyvalue :=
  if py_eq resource_type (PStr "vpc") then validate_vpc parameters
  else if py_eq resource_type (PStr "bucket") then validate_object_storage parameters
  else
    ret (PDict [("error", PStr ("Validation for resource type '" ++
                                str resource_type ++ "' not implemented."))]).

End WithWorld.

End scaleway_cli.

(* ================================================================== *)
(** * Docker/langchain_agent.py                                        *)
(* ================================================================== *)

Module langchain_agent.

(** ** class DeepSeekLLM(LLM) *)
Module DeepSeekLLM.

Record t : Type := {
  model : string;
  endpoint : string;
  api_key : string;
  temperature : Q;
  max_tokens : Z
}.

(** [DeepSeekLLM(model=..., endpoint=..., api_key=...)].  The three fields
    are declared [str], so the (pydantic) constructor refuses [None]; the
    other two fields take their declared defaults.  The message of the
    error is abridged. *)
Definition new (model endpoint api_key : option string) : outcome t :=
  match model, endpoint, api_key with
  | Some m, Some e, Some k =>
      Returns {| model := m; endpoint := e; api_key := k;
                 temperature := 3 # 10; max_tokens := 512 |}
  | _, _, _ => Raises (Exn ValidationError "validation error for DeepSeekLLM")
  end.

Definition system_prompt : string :=
  "You are an infrastructure automation agent for Scaleway." ++ nl ++
  "Always reason using tools." ++ nl ++
  "Use this structure:" ++ nl ++
  "Thought: what to do" ++ nl ++
  "Action: name of the tool" ++ nl ++
  "Action Input: the JSON input" ++ nl ++
  "Observation: result" ++ nl ++
  "Final Answer: the summary or output.".

Definition headers_of (self : t) : Headers :=
  [("Authorization", "Bearer " ++ api_key self);
   ("Content-Type", "application/json")].

Definition payload_of (self : t) (prompt : string) : Payload :=
  {| p_model := model self;
     p_messages := [ {| role := "system"; content := system_prompt |};
                     {| role := "user"; content := prompt |} ];
     p_temperature := temperature self;
     p_max_tokens := max_tokens self |}.

(** [response_json["choices"][0]["message"]["content"]] *)
Definition completion_of (response_json : pyvalue) : outcome pyvalue :=
  choices <-- getitem_key response_json "choices" ;;
  first <-- getitem_0 choices ;;
  message <-- getitem_key first "message" ;;
  getitem_key message "content".

Section WithWorld.
Variable w : World.

(** [self._call(prompt, stop=None)]; [stop] is not used by the body. *)
Definition _call (self : t) (prompt : string) : M pyvalue :=
  let headers := headers_of self in
  let payload := payload_of self prompt in
  _ <- tell (HttpPost (endpoint self) headers payload) ;;
  match requests_post w (endpoint self) headers payload with
  | PostError e => raise e
  | Responded response =>
      lift (_ <-- raise_for_status response ;;
            response_json <-- json response ;;
            completion_of response_json)
  end.

End WithWorld.

End DeepSeekLLM.

Section WithWorld.
Variable w : World.

(** [list_resources(resource_type, region)]; the declared default of
    [region] is ["fr-par"]. *)
Definition list_resources (resource_type region : pyvalue) : M pyvalue :=
  let project_id := getenv w "SCW_DEFAULT_PROJECT_ID" in
  if py_eq resource_type (PStr "vpc") then
    let command :=
      [PStr "scw"; PStr "vpc"; PStr "vpc"; PStr "list";
       PStr ("project-id=" ++ str_opt project_id);
       PStr ("region=" ++ str region);
       PStr "--output"; PStr "json"] in
    try_except
      (output <- scaleway_cli.run_cli w command ;;
       ret (PDict [("items", PStr output)]))
      (fun e => ret (PDict [("error", PStr (exn_msg e))]))
  else if py_eq resource_type (PStr "bucket") then
    let command :=
      [PStr "scw"; PStr "object"; PStr "bucket"; PStr "list";
       PStr ("region=" ++ str region);
       PStr ("project-id=" ++ str_opt project_id);
       PStr "--output"; PStr "json"] in
    try_except
      (output <- scaleway_cli.run_cli w command ;;
       ret (PDict [("items", PStr output)]))
      (fun e => ret (PDict [("error", PStr (exn_msg e))]))
  else
    ret (PDict [("error", PStr ("Unsupported resource type: " ++ str resource_type))]).

Definition instruction : string :=
  "Respond ONLY with valid Terraform code — no explanation, no Markdown, no commentary." ++ nl ++
  "Only output clean provider/resource blocks.".

(** [Generation(text=v)] of the langchain base class, which wraps what
    [_call] returns.  [text] is a [str] field of a pydantic model: a
    string is taken as it is, a number (a [bool] is an [int]) is turned
    into its text by [str], and anything else is refused with a
    validation error. *)
Definition Generation_text (v : pyvalue) : outcome string :=
  match v with
  | PStr text => Returns text
  | PInt _ | PBool _ => Returns (str v)
  | PNone =>
      Raises (Exn ValidationError
                ("1 validation error for Generation" ++ nl ++ "text" ++ nl ++
                 "  none is not an allowed value (type=type_error.none.not_allowed)"))
  | PList _ | PDict _ =>
      Raises (Exn ValidationError
                ("1 validation error for Generation" ++ nl ++ "text" ++ nl ++
                 "  str type expected (type=type_error.str)"))
  end.

(** [llm(prompt)], the [__call__] that [DeepSeekLLM] inherits from [LLM]:
    it calls [_call], wraps the result in a [Generation] and returns the
    [text] of that; what [_call] or the wrapping raises is raised on. *)
Definition LLM_call (llm : DeepSeekLLM.t) (prompt : string) : M pyvalue :=
  completion <- DeepSeekLLM._call w llm prompt ;;
  text <- lift (Generation_text completion) ;;
  ret (PStr text).

(** [generate_terraform_code(prompt)] *)
Definition generate_terraform_code (prompt : string) : M pyvalue :=
  llm <- lift (DeepSeekLLM.new (getenv w "MODEL_NAME")
                               (getenv w "INFERENCE_ENDPOINT")
                               (getenv w "SCW_SECRET_KEY")) ;;
  let full_prompt := instruction ++ nl ++ nl ++ prompt in
  LLM_call llm full_prompt.

End WithWorld.

(** The names under which the three handlers are registered in [tools]. *)
Definition tools : list string :=
  ["validate_resource"; "list_resources"; "generate_terraform"].

(** [max_iterations=3] of [initialize_agent] in [get_agent]. *)
Definition max_iterations : nat := 3.

(** ** The lazily built agent *)

(** The agent that [initialize_agent] returns, as the arguments it is
    built from in [get_agent]; the call is taken to return. *)
Record Agent : Type := {
  agent_tools : list string;
  agent_llm : DeepSeekLLM.t;
  agent_type : string;
  agent_prefix : string;
  agent_format_instructions : string;
  agent_handle_parsing_errors : bool;
  agent_verbose : bool;
  agent_max_iterations : nat
}.

Definition kwargs_prefix : string :=
  "You are an automation agent for managing Scaleway infrastructure. Always decide what to do using the available tools. NEVER explain your thinking. Only take actions.".

Definition kwargs_format_instructions : string :=
  "Use the following format:" ++ nl ++ nl ++
  "Thought: what you need to do" ++ nl ++
  "Action: the action to take, must be one of [validate_resource, list_resources, generate_terraform]" ++ nl ++
  "Action Input: the JSON input to the action" ++ nl ++
  "Observation: the result of the action" ++ nl ++
  "... (you can repeat Thought/Action/Observation)" ++ nl ++
  "Final Answer: the answer to the user".

(** [get_agent()].  The module global [_agent] is passed in and handed
    back: the result is what the call returns or raises, and the value of
    the global afterwards. *)
Definition get_agent (w : World) (_agent : option Agent) : outcome Agent * option Agent :=
  match _agent with
  | None =>
      match DeepSeekLLM.new (getenv w "MODEL_NAME")
                            (getenv w "INFERENCE_ENDPOINT")
                            (getenv w "SCW_SECRET_KEY") with
      | Raises e => (Raises e, None)
      | Returns llm =>
          let agent :=
            {| agent_tools := tools;
               agent_llm := llm;
               agent_type := "ZERO_SHOT_REACT_DESCRIPTION";
               agent_prefix := kwargs_prefix;
               agent_format_instructions := kwargs_format_instructions;
               agent_handle_parsing_errors := true;
               agent_verbose := true;
               agent_max_iterations := max_iterations |} in
          (Returns agent, Some agent)
      end
  | Some agent => (Returns agent, Some agent)
  end.

(** [run_agent(prompt)]; [agent_run] is the [run] method of the agent,
    which belongs to the library.  The second component is the global
    [_agent] afterwards. *)
Definition run_agent (w : World) (agent_run : Agent -> pyvalue -> M pyvalue)
    (_agent : option Agent) (prompt : pyvalue) : M pyvalue * option Agent :=
  match get_agent w _agent with
  | (Returns agent, cache) => (agent_run agent prompt, cache)
  | (Raises e, cache) => (raise e, cache)
  end.

End langchain_agent.

(* ================================================================== *)
(** * The agent loop                                                   *)
(* ================================================================== *)

(** [get_agent] builds the agent with [initialize_agent(tools=tools,
    llm=llm, ..., handle_parsing_errors=True, max_iterations=3)] and
    [run_agent] calls its [run].  The loop behind [run] is library code;
    this module follows its description in the specification (3 and 4.1),
    with the registered names and the budget taken from the source. *)

Module AgentLoop.

Inductive Role : Type := system | user | assistant | observation.

Record Turn : Type := { turn_role : Role; turn_text : string }.

Definition Transcript : Type := list Turn.

Inductive ToolResult : Type :=
| Ok (value : string)
| Error (message : string).

(** What one completion parses to. *)
Inductive Parsed : Type :=
| FinalAnswer (text : string)
| Action (tool_name raw_argument_text : string)
| ParseError (description : string).

(** [Aborted] is the run ended by an upstream failure (spec 7). *)
Inductive Status : Type :=
| Running
| Finished (text : string)
| Exhausted
| Aborted (e : exn).

(** [completions] is the record of the completion calls issued so far,
    each with the transcript sent and what came back. *)
Record AgentRunState : Type := {
  iteration_count : nat;
  transcript : Transcript;
  status : Status;
  completions : list (Transcript * outcome string)
}.

Section Loop.

(** The completion client, the grammar of the model's output and the
    handlers behind the registered names. *)
Variable complete : Transcript -> outcome string.
Variable parse : string -> Parsed.
Variable handler : string -> string -> outcome string.
Variable system_instruction : string.

(** Modelled from the spec: [ToolRegistry.resolve] (spec 4.3) over the
    names registered in [tools]; the registry object itself belongs to the
    langchain library, which is not part of the sources. *)
Definition resolve (name : string) : option (string -> outcome string) :=
  if existsb (fun n => (n =? name)%string) langchain_agent.tools
  then Some (handler name) else None.

(** Modelled from the spec: step 2c of the loop (spec 4.1), the tool
    dispatch of the langchain executor, which is not part of the sources.
    An unknown name and a failing handler both become an [Error]. *)
Definition dispatch (name raw : string) : ToolResult :=
  match resolve name with
  | None => Error ("Error: unknown tool " ++ name)
  | Some h =>
      match h raw with
      | Returns v => Ok v
      | Raises e => Error (exn_msg e)
      end
  end.

Definition render (r : ToolResult) : string :=
  match r with
  | Ok v => v
  | Error m => m
  end.

(** Modelled from the spec: step 1 of the loop (spec 4.1), the initial
    state of a run of the langchain executor, which is not part of the
    sources. *)
Definition init (prompt : string) : AgentRunState :=
  {| iteration_count := 0;
     transcript := [ {| turn_role := system; turn_text := system_instruction |};
                     {| turn_role := user; turn_text := prompt |} ];
     status := Running;
     completions := [] |}.

(** Modelled from the spec: step 2d of the loop (spec 4.1), of the
    langchain executor, which is not part of the sources: the observation
    is appended and the iteration counted. *)
Definition observe (st : AgentRunState) (text obs : string)
    (calls : list (Transcript * outcome string)) : AgentRunState :=
  {| iteration_count := S (iteration_count st);
     transcript := List.app (transcript st)
                     [ {| turn_role := assistant; turn_text := text |};
                       {| turn_role := observation;
                          turn_text := "Observation: " ++ obs |} ];
     status := Running;
     completions := calls |}.

(** Modelled from the spec: one turn of the loop of [AgentLoop.run]
    (spec 4.1, steps 2a-2d and 3).  The source only configures the loop,
    [initialize_agent(tools=tools, llm=llm, ..., max_iterations=3)] in
    [get_agent]; the loop itself is the agent executor of the langchain
    library, which is not part of the sources. *)
Definition step (st : AgentRunState) : AgentRunState :=
  match status st with
  | Running =>
      if (iteration_count st <? langchain_agent.max_iterations)%nat then
        let reply := complete (transcript st) in
        let calls := List.app (completions st) [(transcript st, reply)] in
        match reply with
        | Raises e =>
            {| iteration_count := iteration_count st;
               transcript := transcript st;
               status := Aborted e;
               completions := calls |}
        | Returns text =>
            match parse text with
            | FinalAnswer x =>
                {| iteration_count := iteration_count st;
                   transcript := transcript st;
                   status := Finished x;
                   completions := calls |}
            | Action name raw =>
                observe st text (render (dispatch name raw)) calls
            | ParseError description =>
                observe st text description calls
            end
        end
      else
        {| iteration_count := iteration_count st;
           transcript := transcript st;
           status := Exhausted;
           completions := completions st |}
  | _ => st
  end.

Fixpoint steps (n : nat) (st : AgentRunState) : AgentRunState :=
  match n with
  | O => st
  | S n' => steps n' (step st)
  end.

(** Modelled from the spec: [AgentLoop.run(prompt)] (spec 4.1), the
    langchain executor behind [run_agent], which is not part of the
    sources.  One more turn than the budget, so that the last one can see
    the budget used up. *)
Definition run (prompt : string) : AgentRunState :=
  steps (S langchain_agent.max_iterations) (init prompt).

(** A completion call after which the loop goes on: it came back with a
    text that is not a final answer. *)
Definition continues (call : Transcript * outcome string) : Prop :=
  exists text, snd call = Returns text /\ forall x, parse text <> FinalAnswer x.

(** The record of completion calls agrees with the status reached. *)
Definition history_ok (st : AgentRunState) : Prop :=
  match status st with
  | Running | Exhausted => Forall continues (completions st)
  | Finished x =>
      exists before t text,
        completions st = List.app before [(t, Returns text)] /\
        parse text = FinalAnswer x /\ Forall continues before
  | Aborted e =>
      exists before t,
        completions st = List.app before [(t, Raises e)] /\
        Forall continues before
  end.

(** The counters agree with the status reached. *)
Definition counters_ok (st : AgentRunState) : Prop :=
  match status st with
  | Running =>
      length (completions st) = iteration_count st /\
      (iteration_count st <= langchain_agent.max_iterations)%nat
  | Exhausted =>
      length (completions st) = iteration_count st /\
      iteration_count st = langchain_agent.max_iterations
  | Finished _ | Aborted _ =>
      length (completions st) = S (iteration_count st) /\
      (iteration_count st < langchain_agent.max_iterations)%nat
  end.

End Loop.

End AgentLoop.

(* ================================================================== *)
(** * Docker/main.py                                                   *)
(* ================================================================== *)

Module main.

(** What a name of [agent_api] can be bound to: a plain value, or the
    coroutine object that calling an [async def] gives. *)
Inductive pyobject : Type :=
| Value (v : pyvalue)
| Coroutine (awaited : outcome pyvalue).

(** The inbound request; [body] is what awaiting [request.json()] gives:
    the parsed body, or the error of a body that is not JSON. *)
Record Request : Type := { body : outcome pyvalue }.

(** [request.json()].  The framework declares the method [async def], and
    the handler is a plain [def] that does not await it: the call yields
    the coroutine object and parses nothing. *)
Definition Request_json (request : Request) : pyobject :=
  Coroutine (body request).

(** [o.get(k)] *)
Definition object_get (o : pyobject) (k : string) : outcome pyvalue :=
  match o with
  | Value v => get v k PNone
  | Coroutine _ =>
      Raises (Exn AttributeError "'coroutine' object has no attribute 'get'")
  end.

Section WithAgent.

(** [run_agent(prompt)], that is [get_agent().run(prompt)]. *)
Variable run_agent : pyvalue -> M pyvalue.

Definition agent_api (request : Request) : M pyvalue :=
  let body := Request_json request in
  prompt <- lift (object_get body "prompt") ;;
  if negb (truthy prompt) then
    ret (PDict [("error", PStr "Missing prompt")])
  else
    try_except
      (result <- run_agent prompt ;;
       ret (PDict [("result", result)]))
      (fun e => ret (PDict [("error", PStr (exn_msg e))])).

End WithAgent.

(** What [templates.TemplateResponse("ui.html", context)] is given: the
    template and the two entries of the context that the handler sets;
    building the response is taken to return. *)
Record TemplateResponse : Type := {
  template : string;
  context_prompt : string;
  context_iac_code : string
}.

Section WithForm.

(** [run_agent(prompt)], and [json.dumps(result, indent=2)] of the
    standard library. *)
Variable run_agent : pyvalue -> M pyvalue.
Variable json_dumps : pyvalue -> outcome string.

(** [process_form(request, prompt)], the handler of [POST /ui]; [prompt]
    is the form field. *)
Definition process_form (prompt : string) : M TemplateResponse :=
  iac_code <-
    try_except
      (result <- run_agent (PStr prompt) ;;
       match result with
       | PStr text => ret text
       | _ => lift (json_dumps result)
       end)
      (fun e => ret ("Error: " ++ exn_msg e)) ;;
  ret {| template := "ui.html";
         context_prompt := prompt;
         context_iac_code := iac_code |}.

End WithForm.

End main.

(* ================================================================== *)
(** * The vocabulary of the specification                              *)
(* ================================================================== *)

Import scaleway_cli langchain_agent.

Module Spec.

(** [r] is a mapping with the single key ["error"]. *)
Definition is_error (r : outcome pyvalue) : Prop :=
  exists message, r = Returns (PDict [("error", PStr message)]).

(** [needle] occurs in [text]. *)
Definition contains (needle text : string) : Prop :=
  exists before after, text = before ++ needle ++ after.

(** [r] is [{valid: False, reason: ...}] with [what] in the reason. *)
Definition is_conflict (what : string) (r : outcome pyvalue) : Prop :=
  exists why,
    r = Returns (PDict [("valid", PBool false); ("reason", PStr why)]) /\
    contains what why.

Definition is_valid (r : outcome pyvalue) : Prop :=
  r = Returns (PDict [("valid", PBool true)]).

(** The field [k] of an object of a listing, [None] when there is none. *)
Definition field (v : pyvalue) (k : string) : pyvalue :=
  match v with
  | PDict d => dict_get d k PNone
  | _ => PNone
  end.

Definition is_object (v : pyvalue) : bool :=
  match v with
  | PDict _ => true
  | _ => false
  end.

Definition subnets_of (net : pyvalue) : list pyvalue :=
  match field net "subnets" with
  | PList l => l
  | _ => []
  end.

(** A VPC object of the listing (spec 6): an object with a [name] whose
    [subnets], when present, is a list of objects. *)
Definition is_network (net : pyvalue) : bool :=
  match net with
  | PDict d =>
      match lookup "name" d with
      | Some _ =>
          match lookup "subnets" d with
          | None => true
          | Some (PList l) => forallb is_object l
          | Some _ => false
          end
      | None => false
      end
  | _ => false
  end.

(** Some subnet of [net] has the CIDR [cidr]. *)
Definition has_subnet (cidr : pyvalue) (net : pyvalue) : bool :=
  existsb (fun subnet => py_eq (field subnet "cidr") cidr) (subnets_of net).

(** The bucket object [bucket] has the name [name]. *)
Definition is_named (name : pyvalue) (bucket : pyvalue) : bool :=
  py_eq (field bucket "name") name.

(** The expected shape of a completion response (spec 6),
    [{choices: [{message: {content: ...}}]}]: the content it carries. *)
Definition expected_content (response_json : pyvalue) : option pyvalue :=
  match response_json with
  | PDict d =>
      match lookup "choices" d with
      | Some (PList (PDict choice :: _)) =>
          match lookup "message" choice with
          | Some (PDict message) => lookup "content" message
          | _ => None
          end
      | _ => None
      end
  | _ => None
  end.

(** A synthetic response of exactly the expected shape. *)
Definition completion_response (s : string) : pyvalue :=
  PDict [("choices", PList [PDict [("message", PDict [("content", PStr s)])]])].

(** The HTTP codes for which the client raises. *)
Definition is_http_error (status : Z) : bool :=
  (400 <=? status) && (status <? 600).

(** The HTTP success codes, 2xx. *)
Definition is_success (status : Z) : bool :=
  (200 <=? status) && (status <? 300).

(** The completion call has an upstream failure: the HTTP call errors,
    or answers with an error status, or the body is not JSON of the
    expected shape. *)
Definition upstream_failure (post : http_outcome) : Prop :=
  (exists e, post = PostError e) \/
  (exists resp, post = Responded resp /\
     (is_http_error (status_code resp) = true \/
      (exists e, json resp = Raises e) \/
      (exists j, json resp = Returns j /\ expected_content j = None))).

(** The completion call is answered, without an error status, by a body
    of the expected shape that carries [v]. *)
Definition completion_text (post : http_outcome) (v : pyvalue) : Prop :=
  exists resp j,
    post = Responded resp /\
    is_http_error (status_code resp) = false /\
    json resp = Returns j /\
    expected_content j = Some v.

(** The strings of [vpc_command]. *)
Definition vpc_argv (w : World) : list string :=
  ["scw"; "vpc"; "vpc"; "list";
   "project-id=" ++ str_opt (getenv w "SCW_DEFAULT_PROJECT_ID");
   "--output"; "json"].

(** The strings of [bucket_command] for a region that is a string. *)
Definition bucket_argv (region : string) : list string :=
  ["scw"; "object"; "bucket"; "list"; "region"; region; "--output"; "json"].

(** What [run_cli] hands back for a process that ran to its end. *)
Definition cli_text (returncode : Z) (out err : string) : string :=
  if returncode =? 0 then
    (if (strip out =? "")%string then strip err else strip out)
  else
    "CLI Error: " ++ (if (strip err =? "")%string then strip out else strip err).

(** The verdict on a listing of well-formed networks: the first network
    with a matching subnet decides. *)
Definition vpc_verdict (cidr : pyvalue) (nets : list pyvalue) : pyvalue :=
  match find (has_subnet cidr) nets with
  | Some net =>
      PDict [("valid", PBool false);
             ("reason", PStr ("CIDR " ++ str cidr ++
                              " already used in private network '" ++
                              str (field net "name") ++ "'"))]
  | None => PDict [("valid", PBool true)]
  end.

(** The verdict on a listing of bucket objects. *)
Definition bucket_verdict (name region : pyvalue) (buckets : list pyvalue) : pyvalue :=
  if existsb (is_named name) buckets then
    PDict [("valid", PBool false);
           ("reason", PStr ("Bucket '" ++ str name ++
                            "' already exists in region " ++ str region))]
  else PDict [("valid", PBool true)].

(** [r] is a mapping [{valid: False, reason: ...}]. *)
Definition is_invalid (r : outcome pyvalue) : Prop :=
  exists why, r = Returns (PDict [("valid", PBool false); ("reason", PStr why)]).

(** No item of the argument vector scopes the call to a region. *)
Definition region_free (argv : list string) : bool :=
  forallb (fun a => negb (startswith a "region")) argv.

End Spec.
Import Spec.

(* ================================================================== *)
(** * Sample worlds                                                    *)
(* ================================================================== *)

Module Samples.

Definition q : string := String dquote "".

Definition no_json : outcome pyvalue :=
  Raises (Exn JSONDecodeError "Expecting value: line 1 column 1 (char 0)").

(** [[{"name": "pn-a", "subnets": [{"cidr": "10.0.0.0/24"}]}]] *)
Definition one_network_text : string :=
  "[{" ++ q ++ "name" ++ q ++ ": " ++ q ++ "pn-a" ++ q ++ ", " ++
  q ++ "subnets" ++ q ++ ": [{" ++ q ++ "cidr" ++ q ++ ": " ++
  q ++ "10.0.0.0/24" ++ q ++ "}]}]".

Definition one_network : pyvalue :=
  PList [PDict [("name", PStr "pn-a");
                ("subnets", PList [PDict [("cidr", PStr "10.0.0.0/24")]])]].

(** [[{"name": "my-bucket"}]] *)
Definition one_bucket_text : string :=
  "[{" ++ q ++ "name" ++ q ++ ": " ++ q ++ "my-bucket" ++ q ++ "}]".

Definition one_bucket : pyvalue := PList [PDict [("name", PStr "my-bucket")]].

(** [json.loads] on the few texts the sample worlds produce. *)
Definition sample_json_loads (text : string) : outcome pyvalue :=
  if (text =? "[]")%string then Returns (PList [])
  else if (text =? one_network_text)%string then Returns one_network
  else if (text =? one_bucket_text)%string then Returns one_bucket
  else no_json.

Definition sample_getenv (name : string) : option string :=
  if (name =? "SCW_DEFAULT_PROJECT_ID")%string then Some "p-1"
  else if (name =? "MODEL_NAME")%string then Some "deepseek"
  else if (name =? "INFERENCE_ENDPOINT")%string then Some "https://llm.example/v1/chat"
  else if (name =? "SCW_SECRET_KEY")%string then Some "secret"
  else None.

Definition refused : http_outcome :=
  PostError (Exn (OtherException "ConnectionError") "connection refused").

(** A world whose CLI prints [stdout] and [stderr] and exits with
    [returncode], and whose endpoint answers [http]. *)
Definition world (returncode : Z) (stdout stderr : string) (http : http_outcome) : World :=
  {| getenv := sample_getenv;
     subprocess_run := fun _ => Exited returncode stdout stderr;
     requests_post := fun _ _ _ => http;
     json_loads := sample_json_loads |}.

Definition answer (status : Z) (reason : string) (body : outcome pyvalue) : http_outcome :=
  Responded {| status_code := status; reason := reason;
               url := "https://llm.example/v1/chat"; json := body |}.

(** The client of the sample worlds. *)
Definition sample_llm : DeepSeekLLM.t :=
  {| DeepSeekLLM.model := "deepseek";
     DeepSeekLLM.endpoint := "https://llm.example/v1/chat";
     DeepSeekLLM.api_key := "secret";
     DeepSeekLLM.temperature := 3 # 10;
     DeepSeekLLM.max_tokens := 512 |}.

End Samples.

(* ================================================================== *)
(** * Further vocabulary                                               *)
(* ================================================================== *)

Module Shapes.

(** [r] is a mapping [{items: text}]. *)
Definition is_items (r : outcome pyvalue) : Prop :=
  exists text, r = Returns (PDict [("items", PStr text)]).

(** The argument vectors of [list_resources]. *)
Definition list_vpc_argv (w : World) (region : pyvalue) : list string :=
  ["scw"; "vpc"; "vpc"; "list";
   "project-id=" ++ str_opt (getenv w "SCW_DEFAULT_PROJECT_ID");
   "region=" ++ str region;
   "--output"; "json"].

Definition list_bucket_argv (w : World) (region : pyvalue) : list string :=
  ["scw"; "object"; "bucket"; "list";
   "region=" ++ str region;
   "project-id=" ++ str_opt (getenv w "SCW_DEFAULT_PROJECT_ID");
   "--output"; "json"].

(** The error mapping of the [except] clause of the validators. *)
Definition parsing_error (message : string) : pyvalue :=
  PDict [("error", PStr ("JSON parsing error: " ++ message))].

(** What [obj.get] raises on a value that is not a dict. *)
Definition no_get (v : pyvalue) : string :=
  "'" ++ type_name v ++ "' object has no attribute 'get'".

(** The conflict that names the network [net]. *)
Definition vpc_conflict (cidr net : pyvalue) : pyvalue :=
  PDict [("valid", PBool false);
         ("reason", PStr ("CIDR " ++ str cidr ++
                          " already used in private network '" ++
                          str (field net "name") ++ "'"))].

Definition bucket_conflict (name : pyvalue) (region : string) : pyvalue :=
  PDict [("valid", PBool false);
         ("reason", PStr ("Bucket '" ++ str name ++
                          "' already exists in region " ++ region))].

(** The request that [_call] sends for [self] and [prompt]. *)
Definition request_of (self : DeepSeekLLM.t) (prompt : string) : event :=
  HttpPost (DeepSeekLLM.endpoint self)
    [("Authorization", "Bearer " ++ DeepSeekLLM.api_key self);
     ("Content-Type", "application/json")]
    {| p_model := DeepSeekLLM.model self;
       p_messages := [ {| role := "system"; content := DeepSeekLLM.system_prompt |};
                       {| role := "user"; content := prompt |} ];
       p_temperature := DeepSeekLLM.temperature self;
       p_max_tokens := DeepSeekLLM.max_tokens self |}.

(** The message of the [HTTPError] for an error status. *)
Definition http_error_text (resp : Response) : string :=
  str_of_Z (status_code resp) ++
  (if status_code resp <? 500 then " Client Error: " else " Server Error: ") ++
  reason resp ++ " for url: " ++ url resp.

(** A world in which no process can be started. *)
Definition no_cli (e : exn) : World :=
  {| getenv := Samples.sample_getenv;
     subprocess_run := fun _ => SpawnError e;
     requests_post := fun _ _ _ => Samples.refused;
     json_loads := Samples.sample_json_loads |}.

(** A world without configuration. *)
Definition bare : World :=
  {| getenv := fun _ => None;
     subprocess_run := fun _ => Exited 0 "[]" "";
     requests_post := fun _ _ _ => Samples.refused;
     json_loads := Samples.sample_json_loads |}.

(** [[null, {"name": "my-bucket"}]], and a world whose CLI prints it. *)
Definition null_first_text : string :=
  "[null, {" ++ Samples.q ++ "name" ++ Samples.q ++ ": " ++
  Samples.q ++ "my-bucket" ++ Samples.q ++ "}]".

Definition null_first : World :=
  {| getenv := Samples.sample_getenv;
     subprocess_run := fun _ => Exited 0 null_first_text "";
     requests_post := fun _ _ _ => Samples.refused;
     json_loads := fun text =>
       if (text =? null_first_text)%string
       then Returns (PList [PNone; PDict [("name", PStr "my-bucket")]])
       else Samples.no_json |}.

Definition not_found : exn := Exn (OtherException "FileNotFoundError")
  "[Errno 2] No such file or directory: 'scw'".

End Shapes.

(* ================================================================== *)
(** * Properties                                                       *)
(* ================================================================== *)

Import Samples.

(** ** Helper lemmas on the Python builtins *)

Lemma str_items_strings (l : list string) (i : nat) :
  str_items i (map PStr l) = Returns l.
Proof.
  revert i; induction l as [|s l IH]; intro i; simpl.
  - reflexivity.
  - rewrite IH; reflexivity.
Qed.

Lemma py_eq_str_true (v : pyvalue) (s : string) :
  py_eq v (PStr s) = true -> v = PStr s.
Proof.
  destruct v; simpl; try discriminate.
  intro H; apply String.eqb_eq in H; now subst.
Qed.

Lemma py_eq_str_false (v : pyvalue) (s : string) :
  v <> PStr s -> py_eq v (PStr s) = false.
Proof.
  intro H; destruct (py_eq v (PStr s)) eqn:E; [|reflexivity].
  apply py_eq_str_true in E; contradiction.
Qed.

Lemma run_cli_exited (w : World) (argv : list string) (returncode : Z) (out err : string) :
  subprocess_run w argv = Exited returncode out err ->
  run_cli w (map PStr argv) = (Returns (cli_text returncode out err), [Subprocess argv]).
Proof.
  intro H; unfold run_cli, cli_text.
  rewrite str_items_strings; simpl; rewrite H.
  destruct (returncode =? 0); simpl;
    [destruct (strip out =? "")%string | destruct (strip err =? "")%string];
    reflexivity.
Qed.

(** ** C2: run_cli *)

(** C2, the amended claim.  For every argument vector whose subprocess
    runs to its end, [run_cli] returns and does not raise.  On a non-zero
    exit the result is the text "CLI Error: " followed by the stripped
    stderr, or by the stripped stdout when the stripped stderr is empty.
    On exit zero the result is the stripped stdout when that is not
    empty, and the stripped stderr otherwise. *)
Theorem run_cli_returns (w : World) (argv : list string) (returncode : Z) (out err : string) :
  subprocess_run w argv = Exited returncode out err ->
  (returncode <> 0 ->
   result_of (run_cli w (map PStr argv)) =
   Returns ("CLI Error: " ++ (if (strip err =? "")%string then strip out else strip err))) /\
  (returncode = 0 ->
   result_of (run_cli w (map PStr argv)) =
   Returns (if (strip out =? "")%string then strip err else strip out)).
Proof.
  intro H; rewrite (run_cli_exited w argv returncode out err H).
  unfold cli_text; split; intro Hc.
  - apply Z.eqb_neq in Hc; rewrite Hc; reflexivity.
  - subst; reflexivity.
Qed.

Lemma run_cli_returns_witness :
  result_of (run_cli (world 1 "" " boom " refused) (map PStr ["scw"; "vpc"])) =
  Returns "CLI Error: boom".
Proof.
  apply (run_cli_returns (world 1 "" " boom " refused) ["scw"; "vpc"] 1 "" " boom ").
  - reflexivity.
  - lia.
Defined.

(** C2 as stated fails: a command that exits 1 with stderr "boom" gives
    "CLI Error: boom", not the stderr text; and a command that exits 0
    with the non-empty stdout " " gives the stderr text, not stdout. *)
Lemma run_cli_as_stated_counterexample :
  let failing := world 1 "" "boom" refused in
  let blank := world 0 " " "warn" refused in
  subprocess_run failing ["scw"] = Exited 1 "" "boom" /\
  result_of (run_cli failing [PStr "scw"]) = Returns "CLI Error: boom" /\
  result_of (run_cli failing [PStr "scw"]) <> Returns "boom" /\
  subprocess_run blank ["scw"] = Exited 0 " " "warn" /\
  result_of (run_cli blank [PStr "scw"]) = Returns "warn" /\
  result_of (run_cli blank [PStr "scw"]) <> Returns " ".
Proof.
  cbv zeta; repeat split; try reflexivity; vm_compute; discriminate.
Qed.

(** ** C1: validate_resource("vpc", ...) *)

Lemma subnet_matches_objects (cidr : pyvalue) (subnets : list pyvalue) :
  forallb is_object subnets = true ->
  subnet_matches cidr subnets =
  Returns (existsb (fun subnet => py_eq (field subnet "cidr") cidr) subnets).
Proof.
  induction subnets as [|s rest IH]; simpl; intro H.
  - reflexivity.
  - apply andb_true_iff in H; destruct H as [Hs Hrest].
    destruct s; try discriminate; simpl.
    destruct (py_eq (dict_get d "cidr" PNone) cidr); simpl.
    + reflexivity.
    + now apply IH.
Qed.

Lemma scan_networks_listing (cidr : pyvalue) (nets : list pyvalue) :
  forallb is_network nets = true ->
  scan_networks cidr nets = Returns (vpc_verdict cidr nets).
Proof.
  unfold vpc_verdict.
  induction nets as [|net rest IH]; simpl; intro H.
  - reflexivity.
  - apply andb_true_iff in H; destruct H as [Hnet Hrest].
    destruct net as [| | | | |d]; try discriminate.
    unfold is_network in Hnet.
    destruct (lookup "name" d) as [name|] eqn:Hname; [|discriminate].
    unfold has_subnet, subnets_of, field, dict_get; simpl.
    unfold dict_get.
    destruct (lookup "subnets" d) as [subs|] eqn:Hsubs.
    + destruct subs; try discriminate; simpl.
      rewrite (subnet_matches_objects cidr l Hnet); simpl.
      destruct (existsb _ l); simpl.
      * rewrite Hname; reflexivity.
      * now apply IH.
    + simpl. now apply IH.
Qed.

Lemma vpc_command_strings (w : World) :
  vpc_command w = map PStr (vpc_argv w).
Proof. reflexivity. Qed.

Lemma cli_text_failure (returncode : Z) (out err : string) :
  returncode <> 0 -> startswith (cli_text returncode out err) "CLI Error" = true.
Proof.
  intro H; unfold cli_text; apply Z.eqb_neq in H; rewrite H; reflexivity.
Qed.

(** [validate_vpc] once the guard is passed and the process has run. *)
Lemma validate_vpc_exited (w : World) (params : pydict) (cidr : pyvalue)
    (returncode : Z) (out err : string) :
  lookup "cidr" params = Some cidr ->
  truthy cidr = true ->
  subprocess_run w (vpc_argv w) = Exited returncode out err ->
  validate_vpc w params =
  (let output := cli_text returncode out err in
   if startswith output "CLI Error" then Returns (PDict [("error", PStr output)])
   else
     match (networks <-- json_loads w output ;;
            items <-- iter networks ;;
            scan_networks cidr items) with
     | Returns v => Returns v
     | Raises e => Returns (PDict [("error", PStr ("JSON parsing error: " ++ exn_msg e))])
     end,
   [Subprocess (vpc_argv w)]).
Proof.
  intros Hc Ht Hrun; unfold validate_vpc, dict_get.
  rewrite Hc, Ht; simpl negb; cbv iota.
  rewrite vpc_command_strings, (run_cli_exited w _ _ _ _ Hrun).
  cbv zeta; unfold bind.
  destruct (startswith (cli_text returncode out err) "CLI Error"); [reflexivity|].
  unfold try_except, lift.
  destruct (obind (json_loads w (cli_text returncode out err)) _); reflexivity.
Qed.

Lemma find_existsb {A} (f : A -> bool) (l : list A) :
  existsb f l = match find f l with Some _ => true | None => false end.
Proof.
  induction l as [|a l IH]; simpl; [reflexivity|].
  destruct (f a); simpl; [reflexivity|exact IH].
Qed.

Lemma contains_middle (before needle after : string) :
  contains needle (before ++ needle ++ after).
Proof. now exists before, after. Qed.

(** C1, the amended claim.  For every parameters mapping whose ["cidr"]
    value is truthy (a non-empty string, say), and a CLI process that runs
    to its end: [validate_resource("vpc", parameters)] returns an error
    mapping when the process exits non-zero, and when its output is not
    parseable JSON; when the output parses to a list of network objects,
    each with a [name] and with [subnets] (if any) a list of objects, it
    returns [{valid: False, reason}] with the CIDR in the reason when some
    subnet of some network has that CIDR, and [{valid: True}] when none
    has. *)
Theorem validate_vpc_listing (w : World) (params : pydict) (cidr : pyvalue)
    (returncode : Z) (out err : string) :
  lookup "cidr" params = Some cidr ->
  truthy cidr = true ->
  subprocess_run w (vpc_argv w) = Exited returncode out err ->
  let r := result_of (validate_resource w (PStr "vpc") params) in
  let output := cli_text returncode out err in
  (returncode <> 0 -> is_error r) /\
  (forall e, json_loads w output = Raises e -> is_error r) /\
  (forall nets,
      startswith output "CLI Error" = false ->
      json_loads w output = Returns (PList nets) ->
      forallb is_network nets = true ->
      (existsb (has_subnet cidr) nets = true -> is_conflict (str cidr) r) /\
      (existsb (has_subnet cidr) nets = false -> is_valid r)).
Proof.
  intros Hc Ht Hrun r output; subst r output.
  unfold validate_resource; simpl py_eq; cbv iota.
  rewrite (validate_vpc_exited w params cidr returncode out err Hc Ht Hrun).
  cbv zeta; unfold result_of, fst.
  split; [|split].
  - intro Hrc; rewrite (cli_text_failure _ out err Hrc).
    eexists; reflexivity.
  - intros e He; rewrite He; simpl.
    destruct (startswith _ _); eexists; reflexivity.
  - intros nets Hpre Hjson Hnets; rewrite Hpre, Hjson; simpl.
    rewrite (scan_networks_listing cidr nets Hnets).
    rewrite find_existsb; unfold vpc_verdict.
    destruct (find (has_subnet cidr) nets) as [net|]; split; intro H;
      try discriminate.
    + eexists; split; [reflexivity|].
      apply (contains_middle "CIDR ").
    + reflexivity.
Qed.

Lemma validate_vpc_listing_witness :
  is_conflict "10.0.0.0/24"
    (result_of (validate_resource (world 0 one_network_text "" refused) (PStr "vpc")
                                  [("cidr", PStr "10.0.0.0/24")])).
Proof.
  refine (proj1 (proj2 (proj2
    (validate_vpc_listing (world 0 one_network_text "" refused)
       [("cidr", PStr "10.0.0.0/24")] (PStr "10.0.0.0/24") 0 one_network_text ""
       eq_refl eq_refl eq_refl))
    [PDict [("name", PStr "pn-a");
            ("subnets", PList [PDict [("cidr", PStr "10.0.0.0/24")]])]]
    _ _ _) _); vm_compute; reflexivity.
Defined.

(** C1 as stated fails.  With ["cidr"] present but empty and an empty
    listing, no subnet has that CIDR, yet the result is the "Missing
    'cidr'" error, not [{valid: True}].  And with a listing whose network
    has the CIDR but no [name], the result is an error mapping, not
    [{valid: False}]. *)
Lemma validate_vpc_as_stated_counterexample :
  let empty_listing := world 0 "[]" "" refused in
  let nameless_text :=
    "[{" ++ q ++ "subnets" ++ q ++ ": [{" ++ q ++ "cidr" ++ q ++ ": " ++
    q ++ "10.0.0.0/24" ++ q ++ "}]}]" in
  let nameless :=
    PList [PDict [("subnets", PList [PDict [("cidr", PStr "10.0.0.0/24")]])]] in
  let nameless_listing :=
    {| getenv := sample_getenv;
       subprocess_run := fun _ => Exited 0 nameless_text "";
       requests_post := fun _ _ _ => refused;
       json_loads := fun text =>
         if (text =? nameless_text)%string then Returns nameless else no_json |} in
  (lookup "cidr" [("cidr", PStr "")] = Some (PStr "") /\
   json_loads empty_listing "[]" = Returns (PList []) /\
   existsb (has_subnet (PStr "")) [] = false /\
   result_of (validate_resource empty_listing (PStr "vpc") [("cidr", PStr "")]) =
   Returns (PDict [("error", PStr "Missing 'cidr' parameter for VPC validation.")]) /\
   ~ is_valid (result_of (validate_resource empty_listing (PStr "vpc") [("cidr", PStr "")]))) /\
  (has_subnet (PStr "10.0.0.0/24")
     (PDict [("subnets", PList [PDict [("cidr", PStr "10.0.0.0/24")]])]) = true /\
   result_of (validate_resource nameless_listing (PStr "vpc") [("cidr", PStr "10.0.0.0/24")]) =
   Returns (PDict [("error", PStr "JSON parsing error: 'name'")]) /\
   ~ is_conflict "10.0.0.0/24"
       (result_of (validate_resource nameless_listing (PStr "vpc")
                                     [("cidr", PStr "10.0.0.0/24")]))).
Proof.
  cbv zeta; repeat split; try reflexivity.
  - vm_compute; discriminate.
  - intros [why [H _]]; vm_compute in H; discriminate.
Qed.

(** A failure to start the process is not a [CalledProcessError]: it
    leaves [run_cli], and [validate_vpc] calls [run_cli] outside its
    [try]. *)
Lemma validate_vpc_spawn_error (w : World) (params : pydict) (cidr : pyvalue) (e : exn) :
  lookup "cidr" params = Some cidr ->
  truthy cidr = true ->
  subprocess_run w (vpc_argv w) = SpawnError e ->
  result_of (validate_resource w (PStr "vpc") params) = Raises e.
Proof.
  intros Hc Ht Hrun.
  unfold validate_resource; simpl py_eq; cbv iota.
  unfold validate_vpc, dict_get; rewrite Hc, Ht; simpl negb; cbv iota.
  rewrite vpc_command_strings; unfold run_cli.
  rewrite str_items_strings; simpl; rewrite Hrun; reflexivity.
Qed.

(** ** C5: validate_resource("bucket", ...) *)

Lemma scan_buckets_listing (name region : pyvalue) (buckets : list pyvalue) :
  forallb is_object buckets = true ->
  scan_buckets name region buckets = Returns (bucket_verdict name region buckets).
Proof.
  unfold bucket_verdict.
  induction buckets as [|b rest IH]; simpl; intro H.
  - reflexivity.
  - apply andb_true_iff in H; destruct H as [Hb Hrest].
    destruct b as [| | | | |d]; try discriminate.
    unfold is_named at 1; simpl.
    destruct (py_eq (dict_get d "name" PNone) name); simpl.
    + reflexivity.
    + now apply IH.
Qed.

Lemma validate_object_storage_exited (w : World) (params : pydict) (name : pyvalue)
    (region : string) (returncode : Z) (out err : string) :
  lookup "name" params = Some name ->
  truthy name = true ->
  dict_get params "region" (PStr "fr-par") = PStr region ->
  subprocess_run w (bucket_argv region) = Exited returncode out err ->
  validate_object_storage w params =
  (let output := cli_text returncode out err in
   if startswith output "CLI Error" then Returns (PDict [("error", PStr output)])
   else
     match (buckets <-- json_loads w output ;;
            items <-- iter buckets ;;
            scan_buckets name (PStr region) items) with
     | Returns v => Returns v
     | Raises e => Returns (PDict [("error", PStr ("JSON parsing error: " ++ exn_msg e))])
     end,
   [Subprocess (bucket_argv region)]).
Proof.
  intros Hn Ht Hreg Hrun; unfold validate_object_storage.
  rewrite Hreg; unfold dict_get; rewrite Hn, Ht; simpl negb; cbv iota.
  change (bucket_command (PStr region)) with (map PStr (bucket_argv region)).
  rewrite (run_cli_exited w _ _ _ _ Hrun).
  cbv zeta; unfold bind.
  destruct (startswith (cli_text returncode out err) "CLI Error"); [reflexivity|].
  unfold try_except, lift.
  destruct (obind (json_loads w (cli_text returncode out err)) _); reflexivity.
Qed.

(** C5, the amended claim.  For every parameters mapping whose ["name"]
    value is truthy (a non-empty string, say) and whose ["region"] is
    absent or a string, and a CLI process that runs to its end:
    [validate_resource("bucket", parameters)] returns an error mapping
    when the process exits non-zero, and when its output is not parseable
    JSON; when the output parses to a list of objects, it returns
    [{valid: False, ...}] if and only if one of them has that [name], and
    [{valid: True}] if and only if none has. *)
Theorem validate_bucket_listing (w : World) (params : pydict) (name : pyvalue)
    (region : string) (returncode : Z) (out err : string) :
  lookup "name" params = Some name ->
  truthy name = true ->
  dict_get params "region" (PStr "fr-par") = PStr region ->
  subprocess_run w (bucket_argv region) = Exited returncode out err ->
  let r := result_of (validate_resource w (PStr "bucket") params) in
  let output := cli_text returncode out err in
  (returncode <> 0 -> is_error r) /\
  (forall e, json_loads w output = Raises e -> is_error r) /\
  (forall buckets,
      startswith output "CLI Error" = false ->
      json_loads w output = Returns (PList buckets) ->
      forallb is_object buckets = true ->
      (is_invalid r <-> existsb (is_named name) buckets = true) /\
      (is_valid r <-> existsb (is_named name) buckets = false)).
Proof.
  intros Hn Ht Hreg Hrun r output; subst r output.
  unfold validate_resource; simpl py_eq; cbv iota.
  rewrite (validate_object_storage_exited w params name region returncode out err
             Hn Ht Hreg Hrun).
  cbv zeta; unfold result_of, fst.
  split; [|split].
  - intro Hrc; rewrite (cli_text_failure _ out err Hrc).
    eexists; reflexivity.
  - intros e He; rewrite He; simpl.
    destruct (startswith _ _); eexists; reflexivity.
  - intros buckets Hpre Hjson Hobjects; rewrite Hpre, Hjson; simpl.
    rewrite (scan_buckets_listing name (PStr region) buckets Hobjects).
    unfold bucket_verdict, is_invalid, is_valid.
    destruct (existsb (is_named name) buckets); repeat split;
      try discriminate; try reflexivity.
    + intros _; eexists; reflexivity.
    + intros [why H]; discriminate.
Qed.

Lemma validate_bucket_listing_witness :
  is_invalid
    (result_of (validate_resource (world 0 one_bucket_text "" refused) (PStr "bucket")
                                  [("name", PStr "my-bucket")])).
Proof.
  refine (proj2 (proj1 (proj2 (proj2
    (validate_bucket_listing (world 0 one_bucket_text "" refused)
       [("name", PStr "my-bucket")] (PStr "my-bucket") "fr-par" 0 one_bucket_text ""
       eq_refl eq_refl eq_refl eq_refl))
    [PDict [("name", PStr "my-bucket")]] _ _ _)) _); vm_compute; reflexivity.
Defined.

(** C5 as stated fails.  With ["name"] present but empty and an empty
    listing, no bucket has that name, yet the result is the "Missing
    'name'" error, not [{valid: True}].  And with a ["region"] that is
    not a string the call raises, whatever the listing holds. *)
Lemma validate_bucket_as_stated_counterexample :
  let empty_listing := world 0 "[]" "" refused in
  let listed := world 0 one_bucket_text "" refused in
  (lookup "name" [("name", PStr "")] = Some (PStr "") /\
   json_loads empty_listing "[]" = Returns (PList []) /\
   existsb (is_named (PStr "")) [] = false /\
   result_of (validate_resource empty_listing (PStr "bucket") [("name", PStr "")]) =
   Returns (PDict [("error", PStr "Missing 'name' parameter for bucket validation.")]) /\
   ~ is_valid (result_of (validate_resource empty_listing (PStr "bucket")
                                            [("name", PStr "")]))) /\
  (validate_resource listed (PStr "bucket") [("name", PStr "my-bucket"); ("region", PInt 3)] =
   (Raises (Exn TypeError "sequence item 5: expected str instance, int found"), [])).
Proof.
  cbv zeta; repeat split; try reflexivity.
  vm_compute; discriminate.
Qed.

(** ** C6: resource types other than "vpc" and "bucket" *)

(** C6.  For every resource type other than ["vpc"] and ["bucket"], and
    whatever the other arguments: [list_resources] returns an error
    mapping, [validate_resource] returns the error mapping that says the
    type is not implemented, neither raises, and neither starts a
    subprocess or sends a request (the trace is empty). *)
Theorem unsupported_resource_type (w : World) (resource_type region : pyvalue)
    (parameters : pydict) :
  resource_type <> PStr "vpc" ->
  resource_type <> PStr "bucket" ->
  list_resources w resource_type region =
    (Returns (PDict [("error", PStr ("Unsupported resource type: " ++ str resource_type))]),
     []) /\
  validate_resource w resource_type parameters =
    (Returns (PDict [("error", PStr ("Validation for resource type '" ++
                                     str resource_type ++ "' not implemented."))]),
     []).
Proof.
  intros Hv Hb.
  unfold list_resources, validate_resource.
  rewrite (py_eq_str_false _ _ Hv), (py_eq_str_false _ _ Hb).
  split; reflexivity.
Qed.

Lemma unsupported_resource_type_witness :
  list_resources (world 0 "[]" "" refused) (PStr "unsupported-kind") (PStr "fr-par") =
    (Returns (PDict [("error", PStr "Unsupported resource type: unsupported-kind")]), []) /\
  validate_resource (world 0 "[]" "" refused) (PStr "unsupported-kind") [] =
    (Returns (PDict [("error", PStr "Validation for resource type 'unsupported-kind' not implemented.")]),
     []).
Proof.
  apply (unsupported_resource_type (world 0 "[]" "" refused)
           (PStr "unsupported-kind") (PStr "fr-par") []); discriminate.
Defined.

(** ** C10: validate_vpc does not depend on the region *)

Lemma run_cli_trace (w : World) (argv : list string) :
  trace_of (run_cli w (map PStr argv)) = [Subprocess argv].
Proof.
  unfold run_cli; rewrite str_items_strings; simpl.
  destruct (subprocess_run w argv) as [rc out err|e]; [|reflexivity].
  destruct (rc =? 0); reflexivity.
Qed.

(** A continuation that leaves no trace adds nothing to the trace. *)
Lemma bind_quiet {A B} (m : M A) (k : A -> M B) :
  (forall a, trace_of (k a) = []) ->
  trace_of (bind m k) = trace_of m.
Proof.
  intro H; destruct m as [[a|e] t]; simpl; [|reflexivity].
  specialize (H a); destruct (k a) as [r t']; simpl in *; subst.
  apply app_nil_r.
Qed.

Lemma try_except_lift_quiet {A} (o : outcome A) (h : exn -> A) :
  trace_of (try_except (lift o) (fun e => ret (h e))) = [].
Proof. destruct o; reflexivity. Qed.

Lemma region_free_vpc_argv (w : World) : region_free (vpc_argv w) = true.
Proof. reflexivity. Qed.

(** C10.  For any two parameter mappings that agree on every key except
    ["region"], [validate_resource("vpc", ...)] does the same in the same
    world: the same result and the same trace.  The trace is empty or the
    single subprocess [vpc_argv], an argument vector that is fixed by the
    environment alone and has no region item. *)
Theorem validate_vpc_region_independent (w : World) (p1 p2 : pydict) :
  (forall k, k <> "region" -> lookup k p1 = lookup k p2) ->
  validate_resource w (PStr "vpc") p1 = validate_resource w (PStr "vpc") p2 /\
  (trace_of (validate_resource w (PStr "vpc") p1) = [] \/
   trace_of (validate_resource w (PStr "vpc") p1) = [Subprocess (vpc_argv w)]) /\
  region_free (vpc_argv w) = true.
Proof.
  intro Hagree.
  assert (Hc : lookup "cidr" p1 = lookup "cidr" p2) by (apply Hagree; discriminate).
  unfold validate_resource; simpl py_eq; cbv iota.
  unfold validate_vpc, dict_get; rewrite <- Hc.
  split; [reflexivity|]. split; [|apply region_free_vpc_argv].
  destruct (negb (truthy _)); [left; reflexivity|right].
  rewrite vpc_command_strings, bind_quiet, run_cli_trace; [reflexivity|].
  intro output; destruct (startswith output "CLI Error"); [reflexivity|].
  apply try_except_lift_quiet.
Qed.

Lemma validate_vpc_region_independent_witness :
  validate_resource (world 0 one_network_text "" refused) (PStr "vpc")
    [("cidr", PStr "10.0.0.0/24"); ("region", PStr "nl-ams")] =
  validate_resource (world 0 one_network_text "" refused) (PStr "vpc")
    [("region", PStr "pl-waw"); ("cidr", PStr "10.0.0.0/24")].
Proof.
  refine (proj1 (validate_vpc_region_independent (world 0 one_network_text "" refused)
    [("cidr", PStr "10.0.0.0/24"); ("region", PStr "nl-ams")]
    [("region", PStr "pl-waw"); ("cidr", PStr "10.0.0.0/24")] _)).
  intros k Hk; cbn [lookup].
  destruct (String.eqb_spec "region" k) as [E|_]; [congruence|].
  reflexivity.
Defined.

(** ** The completion call: C7, C8 and C4 *)

Lemma completion_of_expected (j v : pyvalue) :
  expected_content j = Some v -> DeepSeekLLM.completion_of j = Returns v.
Proof.
  unfold expected_content, DeepSeekLLM.completion_of, getitem_key.
  destruct j as [| | | | |d]; try discriminate.
  destruct (lookup "choices" d) as [[| | | |l|]|]; try discriminate.
  destruct l as [|[| | | | |choice] rest]; try discriminate.
  cbn [obind getitem_0].
  destruct (lookup "message" choice) as [[| | | | |message]|]; try discriminate.
  cbn [obind].
  intro H; rewrite H; reflexivity.
Qed.

Lemma completion_of_unexpected (j : pyvalue) :
  expected_content j = None -> exists e, DeepSeekLLM.completion_of j = Raises e.
Proof.
  unfold expected_content, DeepSeekLLM.completion_of, getitem_key, not_subscriptable.
  destruct j as [| | | | |d]; try (intros _; eexists; reflexivity).
  destruct (lookup "choices" d) as [choices|]; [|intros _; eexists; reflexivity].
  cbn [obind].
  destruct choices as [| | |s|l|c]; cbn [getitem_0 not_subscriptable obind];
    try (intros _; eexists; reflexivity).
  - destruct (chars s); cbn [obind]; intros _; eexists; reflexivity.
  - destruct l as [|first rest]; cbn [obind]; [intros _; eexists; reflexivity|].
    destruct first as [| | | | |choice]; try (intros _; eexists; reflexivity).
    destruct (lookup "message" choice) as [message|]; cbn [obind];
      [|intros _; eexists; reflexivity].
    destruct message as [| | | | |m]; try (intros _; eexists; reflexivity).
    intro H; rewrite H; eexists; reflexivity.
Qed.

Lemma raise_for_status_ok (resp : Response) :
  is_http_error (status_code resp) = false -> raise_for_status resp = Returns tt.
Proof.
  unfold is_http_error, raise_for_status; intro H.
  destruct (400 <=? status_code resp) eqn:Hlo; simpl in *.
  - destruct (status_code resp <? 500) eqn:H5; simpl.
    + apply Z.ltb_lt in H5; apply Z.ltb_ge in H; lia.
    + rewrite H, andb_false_r; reflexivity.
  - destruct (500 <=? status_code resp) eqn:H5; simpl; [|reflexivity].
    apply Z.leb_le in H5; apply Z.leb_gt in Hlo; lia.
Qed.

Lemma raise_for_status_error (resp : Response) :
  is_http_error (status_code resp) = true ->
  exists e, raise_for_status resp = Raises e /\ exn_cls e = HTTPError.
Proof.
  unfold is_http_error, raise_for_status; intro H.
  apply andb_true_iff in H; destruct H as [Hlo Hhi]; rewrite Hlo; simpl.
  destruct (status_code resp <? 500) eqn:H5; [eexists; split; reflexivity|].
  assert (H500 : (500 <=? status_code resp) = true)
    by (apply Z.leb_le; apply Z.ltb_ge in H5; exact H5).
  rewrite H500, Hhi; simpl; eexists; split; reflexivity.
Qed.

(** The result of [_call], read off the answer of the endpoint. *)
Lemma call_result (w : World) (self : DeepSeekLLM.t) (prompt : string) :
  result_of (DeepSeekLLM._call w self prompt) =
  match requests_post w (DeepSeekLLM.endpoint self) (DeepSeekLLM.headers_of self)
                      (DeepSeekLLM.payload_of self prompt) with
  | PostError e => Raises e
  | Responded resp =>
      _ <-- raise_for_status resp ;;
      response_json <-- json resp ;;
      DeepSeekLLM.completion_of response_json
  end.
Proof.
  unfold DeepSeekLLM._call; cbv zeta; unfold bind, tell.
  destruct (requests_post w _ _ _) as [resp|e]; reflexivity.
Qed.

Lemma call_returns (w : World) (self : DeepSeekLLM.t) (prompt : string) (v : pyvalue) :
  completion_text (requests_post w (DeepSeekLLM.endpoint self) (DeepSeekLLM.headers_of self)
                                 (DeepSeekLLM.payload_of self prompt)) v ->
  result_of (DeepSeekLLM._call w self prompt) = Returns v.
Proof.
  intros (resp & j & Hpost & Hstatus & Hjson & Hshape).
  rewrite call_result, Hpost, (raise_for_status_ok resp Hstatus), Hjson; simpl.
  now apply completion_of_expected.
Qed.

Lemma call_raises (w : World) (self : DeepSeekLLM.t) (prompt : string) :
  upstream_failure (requests_post w (DeepSeekLLM.endpoint self) (DeepSeekLLM.headers_of self)
                                  (DeepSeekLLM.payload_of self prompt)) ->
  exists e, result_of (DeepSeekLLM._call w self prompt) = Raises e.
Proof.
  rewrite call_result.
  intros [[e Hpost]|(resp & Hpost & Hwhy)]; rewrite Hpost; [eexists; reflexivity|].
  destruct (is_http_error (status_code resp)) eqn:Hstatus.
  - destruct (raise_for_status_error resp Hstatus) as (e & He & _).
    rewrite He; eexists; reflexivity.
  - rewrite (raise_for_status_ok resp Hstatus); simpl.
    destruct Hwhy as [H|[[e He]|(j & Hj & Hshape)]]; [discriminate| |].
    + rewrite He; eexists; reflexivity.
    + rewrite Hj; simpl; now apply completion_of_unexpected.
Qed.

(** Every answer of the endpoint is a failure or carries a content. *)
Lemma failure_or_text (post : http_outcome) :
  upstream_failure post \/ exists v, completion_text post v.
Proof.
  destruct post as [resp|e]; [|left; left; eexists; reflexivity].
  destruct (is_http_error (status_code resp)) eqn:Hstatus;
    [left; right; eexists; split; [reflexivity|left; exact Hstatus]|].
  destruct (json resp) as [j|e] eqn:Hjson;
    [|left; right; eexists; split; [reflexivity|right; left; eexists; exact Hjson]].
  destruct (expected_content j) as [v|] eqn:Hshape.
  - right; exists v, resp, j; auto.
  - left; right; eexists; split; [reflexivity|right; right; exists j; auto].
Qed.

Lemma bind_lift_returns {A B} (a : A) (k : A -> M B) :
  bind (lift (Returns a)) k = k a.
Proof. unfold bind, lift; destruct (k a); reflexivity. Qed.

(** C7, the amended claim.  The completion call raises exactly when the
    HTTP call errors, or answers with a 4xx or 5xx status, or the body is
    not JSON or lacks the [choices[0].message.content] field; for every
    other answer, that is a body of the expected shape under any other
    status, it returns the content. *)
Theorem call_fails_exactly (w : World) (self : DeepSeekLLM.t) (prompt : string) :
  let post := requests_post w (DeepSeekLLM.endpoint self) (DeepSeekLLM.headers_of self)
                            (DeepSeekLLM.payload_of self prompt) in
  let r := result_of (DeepSeekLLM._call w self prompt) in
  ((exists e, r = Raises e) <-> upstream_failure post) /\
  (forall v, completion_text post v -> r = Returns v).
Proof.
  cbv zeta; split; [split|].
  - intros [e He].
    destruct (failure_or_text (requests_post w (DeepSeekLLM.endpoint self)
                (DeepSeekLLM.headers_of self) (DeepSeekLLM.payload_of self prompt)))
      as [Hf|[v Hv]]; [exact Hf|].
    rewrite (call_returns w self prompt v Hv) in He; discriminate.
  - apply call_raises.
  - intro v; apply call_returns.
Qed.

Lemma call_fails_exactly_witness :
  result_of (DeepSeekLLM._call (world 0 "" "" (answer 200 "OK" (Returns (completion_response "hello"))))
                               sample_llm "hi") = Returns (PStr "hello").
Proof.
  apply (proj2 (call_fails_exactly
                  (world 0 "" "" (answer 200 "OK" (Returns (completion_response "hello"))))
                  sample_llm "hi")).
  eexists; eexists; repeat split; reflexivity.
Defined.

(** C7 as stated fails: 302 is not a success status, and an answer 302
    that names no place to go to is handed back as it is, body included;
    with a body of the expected shape the call returns the content and
    does not raise. *)
Lemma call_as_stated_counterexample :
  let w := world 0 "" "" (answer 302 "Found" (Returns (completion_response "x"))) in
  is_success 302 = false /\
  result_of (DeepSeekLLM._call w sample_llm "hi") = Returns (PStr "x") /\
  ~ (exists e, result_of (DeepSeekLLM._call w sample_llm "hi") = Raises e).
Proof.
  cbv zeta; repeat split.
  intros [e H]; vm_compute in H; discriminate.
Qed.

(** C8.  Round trip: for every completion text [s], when the request
    built from a prompt is answered with a success status and the body
    [{choices: [{message: {content: s}}]}], the call returns exactly [s];
    the one request sent carries two messages, the system instruction and
    then the prompt, unchanged, as the user message. *)
Theorem completion_round_trip (w : World) (self : DeepSeekLLM.t) (prompt s : string)
    (resp : Response) :
  requests_post w (DeepSeekLLM.endpoint self) (DeepSeekLLM.headers_of self)
                (DeepSeekLLM.payload_of self prompt) = Responded resp ->
  is_success (status_code resp) = true ->
  json resp = Returns (completion_response s) ->
  result_of (DeepSeekLLM._call w self prompt) = Returns (PStr s) /\
  (exists payload,
      trace_of (DeepSeekLLM._call w self prompt) =
        [HttpPost (DeepSeekLLM.endpoint self) (DeepSeekLLM.headers_of self) payload] /\
      p_messages payload =
        [ {| role := "system"; content := DeepSeekLLM.system_prompt |};
          {| role := "user"; content := prompt |} ]).
Proof.
  intros Hpost Hstatus Hjson; split.
  - apply call_returns; exists resp, (completion_response s).
    repeat split; try assumption.
    unfold is_success in Hstatus; unfold is_http_error.
    apply andb_true_iff in Hstatus; destruct Hstatus as [_ H].
    apply Z.ltb_lt in H.
    destruct (400 <=? status_code resp) eqn:E; [|reflexivity].
    apply Z.leb_le in E; lia.
  - exists (DeepSeekLLM.payload_of self prompt); split; [|reflexivity].
    unfold DeepSeekLLM._call; cbv zeta; rewrite Hpost.
    unfold trace_of, bind, tell, lift.
    destruct (obind (raise_for_status resp) _); reflexivity.
Qed.

Lemma completion_round_trip_witness :
  result_of (DeepSeekLLM._call (world 0 "" "" (answer 200 "OK" (Returns (completion_response "hello"))))
                               sample_llm "hi") = Returns (PStr "hello").
Proof.
  refine (proj1 (completion_round_trip
                   (world 0 "" "" (answer 200 "OK" (Returns (completion_response "hello"))))
                   sample_llm "hi" "hello"
                   {| status_code := 200; reason := "OK";
                      url := "https://llm.example/v1/chat";
                      json := Returns (completion_response "hello") |}
                   eq_refl eq_refl eq_refl)).
Defined.

(** ** C4: generate_terraform_code *)

Lemma generate_terraform_code_configured (w : World) (prompt m ep k : string) :
  getenv w "MODEL_NAME" = Some m ->
  getenv w "INFERENCE_ENDPOINT" = Some ep ->
  getenv w "SCW_SECRET_KEY" = Some k ->
  generate_terraform_code w prompt =
  LLM_call w
    {| DeepSeekLLM.model := m; DeepSeekLLM.endpoint := ep; DeepSeekLLM.api_key := k;
       DeepSeekLLM.temperature := 3 # 10; DeepSeekLLM.max_tokens := 512 |}
    (instruction ++ nl ++ nl ++ prompt).
Proof.
  intros Hm He Hk; unfold generate_terraform_code.
  rewrite Hm, He, Hk; unfold DeepSeekLLM.new.
  rewrite bind_lift_returns; reflexivity.
Qed.

(** [llm(prompt)] ends as [_call] does, but for the wrapping of what
    [_call] returns, and does to the world what [_call] does. *)
Lemma LLM_call_result (w : World) (llm : DeepSeekLLM.t) (prompt : string) :
  result_of (LLM_call w llm prompt) =
  (completion <-- result_of (DeepSeekLLM._call w llm prompt) ;;
   text <-- Generation_text completion ;;
   Returns (PStr text)).
Proof.
  unfold LLM_call, result_of, bind, lift, ret.
  destruct (DeepSeekLLM._call w llm prompt) as [[v|e] t]; simpl; [|reflexivity].
  destruct (Generation_text v); reflexivity.
Qed.

Lemma LLM_call_trace (w : World) (llm : DeepSeekLLM.t) (prompt : string) :
  trace_of (LLM_call w llm prompt) = trace_of (DeepSeekLLM._call w llm prompt).
Proof.
  unfold LLM_call; apply bind_quiet.
  intro v; unfold bind, lift, ret, trace_of.
  destruct (Generation_text v); reflexivity.
Qed.

(** Without its configuration the handler raises before any request. *)
Lemma generate_terraform_code_unconfigured (w : World) (prompt : string) :
  getenv w "MODEL_NAME" = None \/ getenv w "INFERENCE_ENDPOINT" = None \/
  getenv w "SCW_SECRET_KEY" = None ->
  generate_terraform_code w prompt =
  (Raises (Exn ValidationError "validation error for DeepSeekLLM"), []).
Proof.
  unfold generate_terraform_code, DeepSeekLLM.new.
  intros [H|[H|H]]; rewrite H;
    repeat match goal with
    | |- context [match getenv ?w ?n with _ => _ end] => destruct (getenv w n)
    end; reflexivity.
Qed.

(** C4, the amended claim.  With its configuration in place, the
    [generate_terraform] handler returns the raw model text when the
    completion call is answered, without an error status, by a body of the
    expected shape whose content is a string; a content that is a number
    comes back as its decimal text, and a null content raises the
    validation error of the wrapping.  On an upstream failure (HTTP error,
    4xx or 5xx status, malformed body) nothing is caught: the handler
    raises, and an error of the HTTP call is raised on as it is. *)
Theorem generate_terraform_code_outcome (w : World) (prompt m ep k : string) :
  getenv w "MODEL_NAME" = Some m ->
  getenv w "INFERENCE_ENDPOINT" = Some ep ->
  getenv w "SCW_SECRET_KEY" = Some k ->
  let llm :=
    {| DeepSeekLLM.model := m; DeepSeekLLM.endpoint := ep; DeepSeekLLM.api_key := k;
       DeepSeekLLM.temperature := 3 # 10; DeepSeekLLM.max_tokens := 512 |} in
  let post := requests_post w ep (DeepSeekLLM.headers_of llm)
                (DeepSeekLLM.payload_of llm (instruction ++ nl ++ nl ++ prompt)) in
  let r := result_of (generate_terraform_code w prompt) in
  (forall text, completion_text post (PStr text) -> r = Returns (PStr text)) /\
  (forall z, completion_text post (PInt z) -> r = Returns (PStr (str_of_Z z))) /\
  (completion_text post PNone -> exists e, r = Raises e /\ exn_cls e = ValidationError) /\
  (upstream_failure post -> exists e, r = Raises e) /\
  (forall e, post = PostError e -> r = Raises e).
Proof.
  intros Hm He Hk llm post r; subst r.
  rewrite (generate_terraform_code_configured w prompt m ep k Hm He Hk).
  fold llm; rewrite LLM_call_result.
  assert (Hret : forall v, completion_text post v ->
            result_of (DeepSeekLLM._call w llm (instruction ++ nl ++ nl ++ prompt)) =
            Returns v)
    by (intros v Hv; apply call_returns; exact Hv).
  assert (Hraise : upstream_failure post ->
            exists e,
              result_of (DeepSeekLLM._call w llm (instruction ++ nl ++ nl ++ prompt)) =
              Raises e)
    by (intro Hf; apply call_raises; exact Hf).
  split; [|split; [|split; [|split]]].
  - intros text Hv; rewrite (Hret _ Hv); reflexivity.
  - intros z Hv; rewrite (Hret _ Hv); reflexivity.
  - intros Hv; rewrite (Hret _ Hv); simpl.
    eexists; split; reflexivity.
  - intro Hf; destruct (Hraise Hf) as [e He'].
    rewrite He'; exists e; reflexivity.
  - intros e Hpost; rewrite call_result.
    change (requests_post w (DeepSeekLLM.endpoint llm) (DeepSeekLLM.headers_of llm)
              (DeepSeekLLM.payload_of llm (instruction ++ nl ++ nl ++ prompt)))
      with post.
    rewrite Hpost; reflexivity.
Qed.

Lemma generate_terraform_code_outcome_witness :
  result_of (generate_terraform_code
               (world 0 "" "" (answer 200 "OK" (Returns (completion_response "resource {}"))))
               "a vpc") = Returns (PStr "resource {}").
Proof.
  refine (proj1 (generate_terraform_code_outcome
                   (world 0 "" "" (answer 200 "OK" (Returns (completion_response "resource {}"))))
                   "a vpc" "deepseek" "https://llm.example/v1/chat" "secret"
                   eq_refl eq_refl eq_refl) "resource {}" _).
  eexists; eexists; repeat split; reflexivity.
Defined.

(** C4 as stated fails: with the endpoint refusing the connection, the
    handler does not return an error result, it raises the connection
    error. *)
Lemma generate_terraform_code_as_stated_counterexample :
  let w := world 0 "" "" refused in
  requests_post w "https://llm.example/v1/chat"
    (DeepSeekLLM.headers_of sample_llm)
    (DeepSeekLLM.payload_of sample_llm (instruction ++ nl ++ nl ++ "a vpc")) = refused /\
  result_of (generate_terraform_code w "a vpc") =
    Raises (Exn (OtherException "ConnectionError") "connection refused") /\
  ~ (exists v, result_of (generate_terraform_code w "a vpc") = Returns v).
Proof.
  cbv zeta; repeat split.
  intros [v H]; vm_compute in H; discriminate.
Qed.

(** ** C9: the JSON endpoint *)

(** C9, what the code does.  Whatever the request and whatever the agent,
    [agent_api] calls [get] on the coroutine object that the un-awaited
    [request.json()] gives: the handler raises [AttributeError] before it
    looks at the body, before its "Missing prompt" answer and outside its
    [try]. *)
Theorem agent_api_raises (run_agent : pyvalue -> M pyvalue) (request : main.Request) :
  main.agent_api run_agent request =
  (Raises (Exn AttributeError "'coroutine' object has no attribute 'get'"), []).
Proof. reflexivity. Qed.

(** The request with the JSON body [{}], which has no ["prompt"]. *)
Example agent_api_no_prompt (run_agent : pyvalue -> M pyvalue) :
  result_of (main.agent_api run_agent {| main.body := Returns (PDict []) |}) <>
  Returns (PDict [("error", PStr "Missing prompt")]).
Proof. unfold main.agent_api; simpl; discriminate. Qed.

(** ** C3: the iteration budget of the agent loop *)

Section LoopProperties.

Import AgentLoop.

Variable complete : Transcript -> outcome string.
Variable parse : string -> Parsed.
Variable handler : string -> string -> outcome string.
Variable system_instruction : string.

Abbreviation step := (AgentLoop.step complete parse handler).
Abbreviation steps := (AgentLoop.steps complete parse handler).
Abbreviation run := (AgentLoop.run complete parse handler system_instruction).
Abbreviation history_ok := (AgentLoop.history_ok parse).
Abbreviation continues := (AgentLoop.continues parse).

Lemma step_halted (st : AgentRunState) :
  status st <> Running -> step st = st.
Proof.
  unfold AgentLoop.step; destruct (status st); congruence.
Qed.

Lemma steps_halted (n : nat) (st : AgentRunState) :
  status st <> Running -> steps n st = st.
Proof.
  induction n as [|n IH]; intro H; simpl; [reflexivity|].
  rewrite (step_halted st H); now apply IH.
Qed.

Lemma step_counters (st : AgentRunState) :
  counters_ok st -> counters_ok (step st).
Proof.
  unfold AgentLoop.step, counters_ok.
  destruct (status st) eqn:Hs; try (rewrite Hs; tauto).
  intros [Hlen Hle].
  destruct (iteration_count st <? max_iterations)%nat eqn:Hlt.
  - apply Nat.ltb_lt in Hlt.
    destruct (complete (transcript st)) as [text|e]; simpl.
    + destruct (parse text); simpl; rewrite length_app; simpl; lia.
    + rewrite length_app; simpl; lia.
  - apply Nat.ltb_ge in Hlt; simpl; lia.
Qed.

Lemma step_history (st : AgentRunState) :
  history_ok st -> history_ok (step st).
Proof.
  unfold AgentLoop.step, AgentLoop.history_ok.
  destruct (status st) eqn:Hs; try (rewrite Hs; tauto).
  intro Hall.
  destruct (iteration_count st <? max_iterations)%nat; [|exact Hall].
  destruct (complete (transcript st)) as [text|e] eqn:Hc; simpl.
  - destruct (parse text) eqn:Hp; simpl.
    + exists (completions st), (transcript st), text; auto.
    + apply Forall_app; split; [exact Hall|].
      constructor; [|constructor].
      exists text; split; [reflexivity|]; intros x Hx; congruence.
    + apply Forall_app; split; [exact Hall|].
      constructor; [|constructor].
      exists text; split; [reflexivity|]; intros x Hx; congruence.
  - exists (completions st), (transcript st); auto.
Qed.

Lemma steps_invariants (n : nat) (st : AgentRunState) :
  counters_ok st -> history_ok st ->
  counters_ok (steps n st) /\ history_ok (steps n st).
Proof.
  revert st; induction n as [|n IH]; intros st Hc Hh; simpl; [now split|].
  apply IH; [now apply step_counters|now apply step_history].
Qed.

(** The loop stops: enough turns leave no run in progress. *)
Lemma steps_stop (n : nat) (st : AgentRunState) :
  counters_ok st ->
  (max_iterations - iteration_count st < n)%nat ->
  status (steps n st) <> Running.
Proof.
  revert st; induction n as [|n IH]; intros st Hc Hn; [lia|].
  simpl.
  destruct (status st) eqn:Hs.
  2-4: rewrite step_halted, steps_halted; congruence.
  pose proof (step_counters st Hc) as Hc'.
  unfold AgentLoop.step in *; rewrite Hs in *.
  destruct (iteration_count st <? max_iterations)%nat eqn:Hlt.
  - apply Nat.ltb_lt in Hlt.
    destruct (complete (transcript st)) as [text|e].
    + destruct (parse text).
      * rewrite steps_halted; simpl; congruence.
      * apply IH; [exact Hc'|unfold observe; cbn [iteration_count]; lia].
      * apply IH; [exact Hc'|unfold observe; cbn [iteration_count]; lia].
    + rewrite steps_halted; simpl; congruence.
  - rewrite steps_halted; simpl; congruence.
Qed.

Lemma init_counters (prompt : string) :
  counters_ok (AgentLoop.init system_instruction prompt).
Proof. unfold counters_ok; simpl; lia. Qed.

Lemma init_history (prompt : string) :
  history_ok (AgentLoop.init system_instruction prompt).
Proof. unfold AgentLoop.history_ok; simpl; constructor. Qed.

(** C3.  For every prompt the run ends (it is not left in progress), with
    at most [max_iterations], that is 3, completion calls on record and
    an iteration count of at most 3; and when the 3rd completion call
    came back with a text that is not a final answer, the run has ended
    exhausted, which is not a finished run with an answer, and the record
    holds exactly 3 calls: there is no 4th. *)
Theorem run_within_budget (prompt : string) :
  max_iterations = 3%nat /\
  status (run prompt) <> Running /\
  (length (completions (run prompt)) <= max_iterations)%nat /\
  (iteration_count (run prompt) <= max_iterations)%nat /\
  (forall t text,
      nth_error (completions (run prompt)) (max_iterations - 1) = Some (t, Returns text) ->
      (forall x, parse text <> FinalAnswer x) ->
      status (run prompt) = Exhausted /\
      (forall x, status (run prompt) <> Finished x) /\
      length (completions (run prompt)) = max_iterations).
Proof.
  split; [reflexivity|].
  unfold AgentLoop.run.
  destruct (steps_invariants (S max_iterations) (AgentLoop.init system_instruction prompt)
              (init_counters prompt) (init_history prompt)) as [Hc Hh].
  assert (Hstop : status (steps (S max_iterations)
                            (AgentLoop.init system_instruction prompt)) <> Running)
    by (apply steps_stop; [apply init_counters|];
        unfold AgentLoop.init; cbn [iteration_count]; lia).
  set (final := steps (S max_iterations) (AgentLoop.init system_instruction prompt)) in *.
  assert (Hmax : (0 < max_iterations)%nat) by (unfold max_iterations; lia).
  unfold counters_ok in Hc; unfold AgentLoop.history_ok in Hh.
  destruct (status final) as [|x| |e] eqn:Hs; [congruence| | |].
  - (* Finished *)
    destruct Hc as [Hlen Hlt]; destruct Hh as (before & t0 & text0 & Hcs & Hp & _).
    split; [congruence|]; split; [lia|]; split; [lia|].
    intros t text Hnth Hnot; exfalso.
    assert (Hb : length before = iteration_count final)
      by (rewrite Hcs, length_app in Hlen; simpl in Hlen; lia).
    assert (Hi : iteration_count final = (max_iterations - 1)%nat).
    { assert (max_iterations - 1 < length (completions final))%nat
        by (apply nth_error_Some; congruence). lia. }
    rewrite Hcs, nth_error_app2, Hb, Hi, Nat.sub_diag in Hnth by lia.
    simpl in Hnth; inversion Hnth; subst; exact (Hnot x Hp).
  - (* Exhausted *)
    destruct Hc as [Hlen Heq].
    split; [congruence|]; split; [lia|]; split; [lia|].
    intros t text _ _; split; [reflexivity|]; split; [congruence|lia].
  - (* Aborted *)
    destruct Hc as [Hlen Hlt]; destruct Hh as (before & t0 & Hcs & _).
    split; [congruence|]; split; [lia|]; split; [lia|].
    intros t text Hnth Hnot; exfalso.
    assert (Hb : length before = iteration_count final)
      by (rewrite Hcs, length_app in Hlen; simpl in Hlen; lia).
    assert (Hi : iteration_count final = (max_iterations - 1)%nat).
    { assert (max_iterations - 1 < length (completions final))%nat
        by (apply nth_error_Some; congruence). lia. }
    rewrite Hcs, nth_error_app2, Hb, Hi, Nat.sub_diag in Hnth by lia.
    simpl in Hnth; inversion Hnth.
Qed.

End LoopProperties.

Lemma run_within_budget_witness :
  AgentLoop.status
    (AgentLoop.run (fun _ => Returns "Thought: which tool?")
                   (fun _ => AgentLoop.ParseError "Could not parse LLM output")
                   (fun _ _ => Returns "[]") "Use the tools." "create a vpc") =
  AgentLoop.Exhausted.
Proof.
  refine (proj1 (proj2 (proj2 (proj2 (proj2
    (run_within_budget (fun _ => Returns "Thought: which tool?")
                       (fun _ => AgentLoop.ParseError "Could not parse LLM output")
                       (fun _ _ => Returns "[]") "Use the tools." "create a vpc"))))
    _ "Thought: which tool?" _ _)).
  - vm_compute; reflexivity.
  - intros x; discriminate.
Defined.

(* ================================================================== *)
(** * Further properties of the tool handlers                          *)
(* ================================================================== *)

Import Shapes.

(** ** The guards of the validators *)

(** X1.  A parameters mapping whose ["cidr"] (for "vpc") or ["name"] (for
    "bucket") is missing or falsy is answered with the "Missing ..."
    error mapping, and no subprocess is started. *)
Theorem validate_resource_missing_parameter (w : World) (params : pydict) :
  (truthy (dict_get params "cidr" PNone) = false ->
   validate_resource w (PStr "vpc") params =
   (Returns (PDict [("error", PStr "Missing 'cidr' parameter for VPC validation.")]), [])) /\
  (truthy (dict_get params "name" PNone) = false ->
   validate_resource w (PStr "bucket") params =
   (Returns (PDict [("error", PStr "Missing 'name' parameter for bucket validation.")]), [])).
Proof.
  split; intro H; unfold validate_resource; simpl py_eq; cbv iota.
  - unfold validate_vpc; rewrite H; reflexivity.
  - unfold validate_object_storage; rewrite H; reflexivity.
Qed.

Lemma validate_resource_missing_parameter_witness :
  validate_resource (world 0 one_network_text "" refused) (PStr "vpc")
    [("region", PStr "fr-par"); ("cidr", PNone)] =
  (Returns (PDict [("error", PStr "Missing 'cidr' parameter for VPC validation.")]), []).
Proof.
  apply (proj1 (validate_resource_missing_parameter
                  (world 0 one_network_text "" refused)
                  [("region", PStr "fr-par"); ("cidr", PNone)])).
  reflexivity.
Defined.

(** ** The validators do not raise once the process has run *)

(** Whatever the listing holds, a scan that returns gives a verdict. *)
Lemma scan_networks_shape (cidr : pyvalue) (nets : list pyvalue) (v : pyvalue) :
  scan_networks cidr nets = Returns v ->
  is_valid (Returns v) \/ is_invalid (Returns v).
Proof.
  induction nets as [|net rest IH]; simpl.
  - intro H; inversion H; left; reflexivity.
  - destruct (get net "subnets" (PList [])) as [subnets|e]; simpl; [|discriminate].
    destruct (iter subnets) as [items|e]; simpl; [|discriminate].
    destruct (subnet_matches cidr items) as [[|]|e]; simpl; [| |discriminate].
    + destruct (getitem_key net "name") as [name|e]; simpl; [|discriminate].
      intro H; inversion H; right; eexists; reflexivity.
    + exact IH.
Qed.

Lemma scan_buckets_shape (name region : pyvalue) (buckets : list pyvalue) (v : pyvalue) :
  scan_buckets name region buckets = Returns v ->
  is_valid (Returns v) \/ is_invalid (Returns v).
Proof.
  induction buckets as [|b rest IH]; simpl.
  - intro H; inversion H; left; reflexivity.
  - destruct (get b "name" PNone) as [n|e]; simpl; [|discriminate].
    destruct (py_eq n name).
    + intro H; inversion H; right; eexists; reflexivity.
    + exact IH.
Qed.

(** [validate_vpc] for any parameters, once the process has run. *)
Lemma validate_vpc_after_exit (w : World) (params : pydict)
    (returncode : Z) (out err : string) :
  subprocess_run w (vpc_argv w) = Exited returncode out err ->
  let cidr := dict_get params "cidr" PNone in
  let output := cli_text returncode out err in
  validate_vpc w params =
  if negb (truthy cidr) then
    (Returns (PDict [("error", PStr "Missing 'cidr' parameter for VPC validation.")]), [])
  else
    (if startswith output "CLI Error" then Returns (PDict [("error", PStr output)])
     else
       match (networks <-- json_loads w output ;;
              items <-- iter networks ;;
              scan_networks cidr items) with
       | Returns v => Returns v
       | Raises e => Returns (parsing_error (exn_msg e))
       end,
     [Subprocess (vpc_argv w)]).
Proof.
  intros Hrun cidr output; subst cidr output; unfold validate_vpc.
  destruct (negb (truthy (dict_get params "cidr" PNone))); [reflexivity|].
  rewrite vpc_command_strings, (run_cli_exited w _ _ _ _ Hrun).
  unfold bind.
  destruct (startswith (cli_text returncode out err) "CLI Error"); [reflexivity|].
  unfold try_except, lift, parsing_error.
  destruct (obind (json_loads w (cli_text returncode out err)) _); reflexivity.
Qed.

Lemma validate_object_storage_after_exit (w : World) (params : pydict) (region : string)
    (returncode : Z) (out err : string) :
  dict_get params "region" (PStr "fr-par") = PStr region ->
  subprocess_run w (bucket_argv region) = Exited returncode out err ->
  let name := dict_get params "name" PNone in
  let output := cli_text returncode out err in
  validate_object_storage w params =
  if negb (truthy name) then
    (Returns (PDict [("error", PStr "Missing 'name' parameter for bucket validation.")]), [])
  else
    (if startswith output "CLI Error" then Returns (PDict [("error", PStr output)])
     else
       match (buckets <-- json_loads w output ;;
              items <-- iter buckets ;;
              scan_buckets name (PStr region) items) with
       | Returns v => Returns v
       | Raises e => Returns (parsing_error (exn_msg e))
       end,
     [Subprocess (bucket_argv region)]).
Proof.
  intros Hreg Hrun name output; subst name output; unfold validate_object_storage.
  rewrite Hreg.
  destruct (negb (truthy (dict_get params "name" PNone))); [reflexivity|].
  change (bucket_command (PStr region)) with (map PStr (bucket_argv region)).
  rewrite (run_cli_exited w _ _ _ _ Hrun).
  unfold bind.
  destruct (startswith (cli_text returncode out err) "CLI Error"); [reflexivity|].
  unfold try_except, lift, parsing_error.
  destruct (obind (json_loads w (cli_text returncode out err)) _); reflexivity.
Qed.

(** X2.  Once the [scw] process has run to its end, whatever it printed
    and whatever [json.loads] makes of it, [validate_resource("vpc", ...)]
    does not raise for any parameters mapping: the result is an error
    mapping, [{valid: True}] or [{valid: False, reason}], and at most the
    one subprocess was started. *)
Theorem validate_vpc_never_raises (w : World) (params : pydict)
    (returncode : Z) (out err : string) :
  subprocess_run w (vpc_argv w) = Exited returncode out err ->
  let r := result_of (validate_resource w (PStr "vpc") params) in
  (is_error r \/ is_valid r \/ is_invalid r) /\
  (trace_of (validate_resource w (PStr "vpc") params) = [] \/
   trace_of (validate_resource w (PStr "vpc") params) = [Subprocess (vpc_argv w)]).
Proof.
  intros Hrun r; subst r.
  unfold validate_resource; simpl py_eq; cbv iota.
  rewrite (validate_vpc_after_exit w params returncode out err Hrun); cbv zeta.
  destruct (negb (truthy (dict_get params "cidr" PNone))).
  - split; [left; eexists; reflexivity|left; reflexivity].
  - split; [|right; reflexivity].
    unfold result_of, fst.
    destruct (startswith (cli_text returncode out err) "CLI Error");
      [left; eexists; reflexivity|].
    destruct (json_loads w (cli_text returncode out err)) as [j|e]; simpl;
      [|left; eexists; reflexivity].
    destruct (iter j) as [items|e]; simpl; [|left; eexists; reflexivity].
    destruct (scan_networks (dict_get params "cidr" PNone) items) as [v|e] eqn:Hscan;
      [|left; eexists; reflexivity].
    right; exact (scan_networks_shape _ _ _ Hscan).
Qed.

Lemma validate_vpc_never_raises_witness :
  is_error (result_of (validate_resource (world 0 "not json" "" refused) (PStr "vpc")
                                         [("cidr", PStr "10.0.0.0/24")])) \/
  is_valid (result_of (validate_resource (world 0 "not json" "" refused) (PStr "vpc")
                                         [("cidr", PStr "10.0.0.0/24")])) \/
  is_invalid (result_of (validate_resource (world 0 "not json" "" refused) (PStr "vpc")
                                           [("cidr", PStr "10.0.0.0/24")])).
Proof.
  exact (proj1 (validate_vpc_never_raises (world 0 "not json" "" refused)
                  [("cidr", PStr "10.0.0.0/24")] 0 "not json" "" eq_refl)).
Defined.

(** X3.  The same for [validate_resource("bucket", ...)] when the region
    is absent or a string; the one subprocess that may be started is the
    bucket listing with that region, ["fr-par"] when absent. *)
Theorem validate_bucket_never_raises (w : World) (params : pydict) (region : string)
    (returncode : Z) (out err : string) :
  dict_get params "region" (PStr "fr-par") = PStr region ->
  subprocess_run w (bucket_argv region) = Exited returncode out err ->
  let r := result_of (validate_resource w (PStr "bucket") params) in
  (is_error r \/ is_valid r \/ is_invalid r) /\
  (trace_of (validate_resource w (PStr "bucket") params) = [] \/
   trace_of (validate_resource w (PStr "bucket") params) = [Subprocess (bucket_argv region)]).
Proof.
  intros Hreg Hrun r; subst r.
  unfold validate_resource; simpl py_eq; cbv iota.
  rewrite (validate_object_storage_after_exit w params region returncode out err Hreg Hrun);
    cbv zeta.
  destruct (negb (truthy (dict_get params "name" PNone))).
  - split; [left; eexists; reflexivity|left; reflexivity].
  - split; [|right; reflexivity].
    unfold result_of, fst.
    destruct (startswith (cli_text returncode out err) "CLI Error");
      [left; eexists; reflexivity|].
    destruct (json_loads w (cli_text returncode out err)) as [j|e]; simpl;
      [|left; eexists; reflexivity].
    destruct (iter j) as [items|e]; simpl; [|left; eexists; reflexivity].
    destruct (scan_buckets (dict_get params "name" PNone) (PStr region) items)
      as [v|e] eqn:Hscan; [|left; eexists; reflexivity].
    right; exact (scan_buckets_shape _ _ _ _ Hscan).
Qed.

Lemma validate_bucket_never_raises_witness :
  trace_of (validate_resource (world 0 one_bucket_text "" refused) (PStr "bucket")
                              [("name", PStr "other")]) = [] \/
  trace_of (validate_resource (world 0 one_bucket_text "" refused) (PStr "bucket")
                              [("name", PStr "other")]) = [Subprocess (bucket_argv "fr-par")].
Proof.
  exact (proj2 (validate_bucket_never_raises (world 0 one_bucket_text "" refused)
                  [("name", PStr "other")] "fr-par" 0 one_bucket_text "" eq_refl eq_refl)).
Defined.

(** ** A region that is not a string *)

(** X4.  For a truthy ["name"] and a ["region"] that is present but not a
    string, [validate_resource("bucket", ...)] raises the [TypeError] of
    joining the command for the log (the region is item 5), in every
    world, before any subprocess is started. *)
Theorem validate_bucket_region_not_string (w : World) (params : pydict) (region : pyvalue) :
  truthy (dict_get params "name" PNone) = true ->
  lookup "region" params = Some region ->
  (forall text, region <> PStr text) ->
  validate_resource w (PStr "bucket") params =
  (Raises (Exn TypeError ("sequence item 5: expected str instance, " ++
                          type_name region ++ " found")), []).
Proof.
  intros Hname Hreg Hnot.
  unfold validate_resource; simpl py_eq; cbv iota.
  unfold validate_object_storage; rewrite Hname.
  unfold dict_get; rewrite Hreg; simpl negb; cbv iota.
  unfold run_cli, bucket_command.
  destruct region; try reflexivity.
  exfalso; exact (Hnot s eq_refl).
Qed.

Lemma validate_bucket_region_not_string_witness :
  validate_resource (world 0 one_bucket_text "" refused) (PStr "bucket")
    [("name", PStr "my-bucket"); ("region", PNone)] =
  (Raises (Exn TypeError "sequence item 5: expected str instance, NoneType found"), []).
Proof.
  apply (validate_bucket_region_not_string (world 0 one_bucket_text "" refused)
           [("name", PStr "my-bucket"); ("region", PNone)] PNone).
  - reflexivity.
  - reflexivity.
  - intros text; discriminate.
Defined.

(** ** The scan stops at the first match *)

Lemma scan_networks_prefix (cidr : pyvalue) (good rest : list pyvalue) (net : pyvalue) :
  forallb is_network good = true ->
  find (has_subnet cidr) good = Some net ->
  scan_networks cidr (List.app good rest) = Returns (vpc_conflict cidr net).
Proof.
  induction good as [|g good IH]; simpl; [discriminate|].
  intros Hgood Hfind.
  apply andb_true_iff in Hgood; destruct Hgood as [Hg Hgood].
  pose proof (scan_networks_listing cidr [g]) as Hone.
  simpl in Hone; rewrite Hg in Hone; specialize (Hone eq_refl).
  unfold vpc_verdict in Hone; simpl in Hone.
  destruct (get g "subnets" (PList [])) as [subnets|e]; simpl in *; [|discriminate].
  destruct (iter subnets) as [items|e]; simpl in *; [|discriminate].
  destruct (subnet_matches cidr items) as [[|]|e]; simpl in *; [| |discriminate].
  - destruct (has_subnet cidr g); [|destruct (getitem_key g "name"); discriminate].
    inversion Hfind; subst; exact Hone.
  - destruct (has_subnet cidr g); [discriminate|].
    now apply IH.
Qed.

Lemma scan_buckets_prefix (name region : pyvalue) (good rest : list pyvalue) :
  forallb is_object good = true ->
  existsb (is_named name) good = true ->
  scan_buckets name region (List.app good rest) =
  Returns (PDict [("valid", PBool false);
                  ("reason", PStr ("Bucket '" ++ str name ++
                                   "' already exists in region " ++ str region))]).
Proof.
  induction good as [|g good IH]; simpl; [discriminate|].
  intros Hgood Hex.
  apply andb_true_iff in Hgood; destruct Hgood as [Hg Hgood].
  destruct g as [| | | | |d]; try discriminate.
  unfold is_named at 1 in Hex; simpl in Hex; simpl.
  destruct (py_eq (dict_get d "name" PNone) name); simpl in *; [reflexivity|].
  now apply IH.
Qed.

(** X5.  The networks are scanned in listing order and the scan returns
    at the first network with a matching subnet: when the listing starts
    with well-formed networks of which one has the CIDR, the result is the
    conflict that names the first such network, whatever follows in the
    listing, well-formed or not. *)
Theorem validate_vpc_first_match (w : World) (params : pydict) (cidr : pyvalue)
    (returncode : Z) (out err : string) (good rest : list pyvalue) (net : pyvalue) :
  lookup "cidr" params = Some cidr ->
  truthy cidr = true ->
  subprocess_run w (vpc_argv w) = Exited returncode out err ->
  startswith (cli_text returncode out err) "CLI Error" = false ->
  json_loads w (cli_text returncode out err) = Returns (PList (List.app good rest)) ->
  forallb is_network good = true ->
  find (has_subnet cidr) good = Some net ->
  result_of (validate_resource w (PStr "vpc") params) = Returns (vpc_conflict cidr net).
Proof.
  intros Hc Ht Hrun Hpre Hjson Hgood Hfind.
  unfold validate_resource; simpl py_eq; cbv iota.
  rewrite (validate_vpc_exited w params cidr returncode out err Hc Ht Hrun).
  cbv zeta; unfold result_of, fst; rewrite Hpre, Hjson; simpl.
  rewrite (scan_networks_prefix cidr good rest net Hgood Hfind); reflexivity.
Qed.

Lemma validate_vpc_first_match_witness :
  result_of (validate_resource (world 0 one_network_text "" refused) (PStr "vpc")
                               [("cidr", PStr "10.0.0.0/24")]) =
  Returns (PDict [("valid", PBool false);
                  ("reason", PStr "CIDR 10.0.0.0/24 already used in private network 'pn-a'")]).
Proof.
  refine (validate_vpc_first_match (world 0 one_network_text "" refused)
            [("cidr", PStr "10.0.0.0/24")] (PStr "10.0.0.0/24") 0 one_network_text ""
            [PDict [("name", PStr "pn-a");
                    ("subnets", PList [PDict [("cidr", PStr "10.0.0.0/24")]])]]
            []
            (PDict [("name", PStr "pn-a");
                    ("subnets", PList [PDict [("cidr", PStr "10.0.0.0/24")]])])
            eq_refl eq_refl eq_refl _ _ _ _); vm_compute; reflexivity.
Defined.

(** X6.  The buckets are scanned in listing order as well: when the
    listing starts with objects of which one has the name, the result is
    the conflict for that name and region, whatever follows. *)
Theorem validate_bucket_first_match (w : World) (params : pydict) (name : pyvalue)
    (region : string) (returncode : Z) (out err : string) (good rest : list pyvalue) :
  lookup "name" params = Some name ->
  truthy name = true ->
  dict_get params "region" (PStr "fr-par") = PStr region ->
  subprocess_run w (bucket_argv region) = Exited returncode out err ->
  startswith (cli_text returncode out err) "CLI Error" = false ->
  json_loads w (cli_text returncode out err) = Returns (PList (List.app good rest)) ->
  forallb is_object good = true ->
  existsb (is_named name) good = true ->
  result_of (validate_resource w (PStr "bucket") params) =
  Returns (bucket_conflict name region).
Proof.
  intros Hn Ht Hreg Hrun Hpre Hjson Hgood Hex.
  unfold validate_resource; simpl py_eq; cbv iota.
  rewrite (validate_object_storage_exited w params name region returncode out err
             Hn Ht Hreg Hrun).
  cbv zeta; unfold result_of, fst; rewrite Hpre, Hjson; simpl.
  rewrite (scan_buckets_prefix name (PStr region) good rest Hgood Hex); reflexivity.
Qed.

Lemma validate_bucket_first_match_witness :
  result_of (validate_resource (world 0 one_bucket_text "" refused) (PStr "bucket")
                               [("name", PStr "my-bucket"); ("region", PStr "nl-ams")]) =
  Returns (PDict [("valid", PBool false);
                  ("reason", PStr "Bucket 'my-bucket' already exists in region nl-ams")]).
Proof.
  refine (validate_bucket_first_match (world 0 one_bucket_text "" refused)
            [("name", PStr "my-bucket"); ("region", PStr "nl-ams")] (PStr "my-bucket")
            "nl-ams" 0 one_bucket_text "" [PDict [("name", PStr "my-bucket")]] []
            eq_refl eq_refl eq_refl eq_refl _ _ _ _); vm_compute; reflexivity.
Defined.

(** ** An entry that is not an object *)

Lemma scan_networks_bad_entry (cidr : pyvalue) (good rest : list pyvalue) (bad : pyvalue) :
  forallb is_network good = true ->
  existsb (has_subnet cidr) good = false ->
  is_object bad = false ->
  scan_networks cidr (List.app good (bad :: rest)) =
  Raises (Exn AttributeError (no_get bad)).
Proof.
  induction good as [|g good IH]; simpl; intros Hgood Hex Hbad.
  - destruct bad; try reflexivity; discriminate.
  - apply andb_true_iff in Hgood; destruct Hgood as [Hg Hgood].
    apply orb_false_iff in Hex; destruct Hex as [Hno Hex].
    pose proof (scan_networks_listing cidr [g]) as Hone.
    simpl in Hone; rewrite Hg in Hone; specialize (Hone eq_refl).
    unfold vpc_verdict in Hone; simpl in Hone; rewrite Hno in Hone.
    destruct (get g "subnets" (PList [])) as [subnets|e]; simpl in *; [|discriminate].
    destruct (iter subnets) as [items|e]; simpl in *; [|discriminate].
    destruct (subnet_matches cidr items) as [[|]|e]; simpl in *; [| |discriminate].
    + destruct (getitem_key g "name"); discriminate.
    + now apply IH.
Qed.

Lemma scan_buckets_bad_entry (name region : pyvalue) (good rest : list pyvalue)
    (bad : pyvalue) :
  forallb is_object good = true ->
  existsb (is_named name) good = false ->
  is_object bad = false ->
  scan_buckets name region (List.app good (bad :: rest)) =
  Raises (Exn AttributeError (no_get bad)).
Proof.
  induction good as [|g good IH]; simpl; intros Hgood Hex Hbad.
  - destruct bad; try reflexivity; discriminate.
  - apply andb_true_iff in Hgood; destruct Hgood as [Hg Hgood].
    apply orb_false_iff in Hex; destruct Hex as [Hno Hex].
    destruct g as [| | | | |d]; try discriminate.
    unfold is_named in Hno; simpl in Hno; simpl; rewrite Hno.
    now apply IH.
Qed.

(** X7.  An entry of the listing that is not an object, met before any
    match, turns the whole answer into an error mapping, for both
    validators: the message is "JSON parsing error: " followed by the
    attribute error of calling [get] on that entry, and entries after it
    are not looked at (a match after it is not reported). *)
Theorem validate_resource_bad_entry (w : World) (params : pydict) (wanted : pyvalue)
    (returncode : Z) (out err : string) (good rest : list pyvalue) (bad : pyvalue) :
  truthy wanted = true ->
  startswith (cli_text returncode out err) "CLI Error" = false ->
  json_loads w (cli_text returncode out err) =
    Returns (PList (List.app good (bad :: rest))) ->
  is_object bad = false ->
  (lookup "cidr" params = Some wanted ->
   subprocess_run w (vpc_argv w) = Exited returncode out err ->
   forallb is_network good = true ->
   existsb (has_subnet wanted) good = false ->
   result_of (validate_resource w (PStr "vpc") params) =
   Returns (parsing_error (no_get bad))) /\
  (forall region,
   lookup "name" params = Some wanted ->
   dict_get params "region" (PStr "fr-par") = PStr region ->
   subprocess_run w (bucket_argv region) = Exited returncode out err ->
   forallb is_object good = true ->
   existsb (is_named wanted) good = false ->
   result_of (validate_resource w (PStr "bucket") params) =
   Returns (parsing_error (no_get bad))).
Proof.
  intros Ht Hpre Hjson Hbad; split.
  - intros Hc Hrun Hgood Hex.
    unfold validate_resource; simpl py_eq; cbv iota.
    rewrite (validate_vpc_exited w params wanted returncode out err Hc Ht Hrun).
    cbv zeta; unfold result_of, fst; rewrite Hpre, Hjson; simpl.
    rewrite (scan_networks_bad_entry wanted good rest bad Hgood Hex Hbad); reflexivity.
  - intros region Hn Hreg Hrun Hgood Hex.
    unfold validate_resource; simpl py_eq; cbv iota.
    rewrite (validate_object_storage_exited w params wanted region returncode out err
               Hn Ht Hreg Hrun).
    cbv zeta; unfold result_of, fst; rewrite Hpre, Hjson; simpl.
    rewrite (scan_buckets_bad_entry wanted (PStr region) good rest bad Hgood Hex Hbad).
    reflexivity.
Qed.

Lemma validate_resource_bad_entry_witness :
  result_of (validate_resource null_first (PStr "bucket") [("name", PStr "my-bucket")]) =
  Returns (PDict [("error",
                   PStr "JSON parsing error: 'NoneType' object has no attribute 'get'")]).
Proof.
  refine (proj2 (validate_resource_bad_entry null_first [("name", PStr "my-bucket")]
                   (PStr "my-bucket") 0 null_first_text ""
                   [] [PDict [("name", PStr "my-bucket")]] PNone
                   eq_refl _ _ eq_refl) "fr-par" eq_refl eq_refl eq_refl eq_refl eq_refl);
    vm_compute; reflexivity.
Defined.

(** ** The text of a failed run *)

(** X8.  Whenever the text that [run_cli] hands back starts with "CLI
    Error", which is always so after a non-zero exit and is also so after
    a zero exit that prints such a text, both validators answer with the
    error mapping that carries that text unchanged; [json.loads] has no
    part in the answer. *)
Theorem validate_resource_cli_error (w : World) (params : pydict)
    (returncode : Z) (out err : string) :
  returncode <> 0 \/ startswith (cli_text returncode out err) "CLI Error" = true ->
  (truthy (dict_get params "cidr" PNone) = true ->
   subprocess_run w (vpc_argv w) = Exited returncode out err ->
   validate_resource w (PStr "vpc") params =
   (Returns (PDict [("error", PStr (cli_text returncode out err))]),
    [Subprocess (vpc_argv w)])) /\
  (forall region,
   truthy (dict_get params "name" PNone) = true ->
   dict_get params "region" (PStr "fr-par") = PStr region ->
   subprocess_run w (bucket_argv region) = Exited returncode out err ->
   validate_resource w (PStr "bucket") params =
   (Returns (PDict [("error", PStr (cli_text returncode out err))]),
    [Subprocess (bucket_argv region)])).
Proof.
  intro H.
  assert (Hpre : startswith (cli_text returncode out err) "CLI Error" = true)
    by (destruct H as [H|H]; [now apply cli_text_failure|exact H]).
  split.
  - intros Ht Hrun.
    unfold validate_resource; simpl py_eq; cbv iota.
    rewrite (validate_vpc_after_exit w params returncode out err Hrun); cbv zeta.
    rewrite Ht, Hpre; reflexivity.
  - intros region Ht Hreg Hrun.
    unfold validate_resource; simpl py_eq; cbv iota.
    rewrite (validate_object_storage_after_exit w params region returncode out err Hreg Hrun);
      cbv zeta.
    rewrite Ht, Hpre; reflexivity.
Qed.

Lemma validate_resource_cli_error_witness :
  validate_resource (world 0 "CLI Error is what this prints" "" refused) (PStr "vpc")
    [("cidr", PStr "10.0.0.0/24")] =
  (Returns (PDict [("error", PStr "CLI Error is what this prints")]),
   [Subprocess ["scw"; "vpc"; "vpc"; "list"; "project-id=p-1"; "--output"; "json"]]).
Proof.
  refine (proj1 (validate_resource_cli_error
                   (world 0 "CLI Error is what this prints" "" refused)
                   [("cidr", PStr "10.0.0.0/24")] 0 "CLI Error is what this prints" "" _)
            eq_refl eq_refl).
  right; vm_compute; reflexivity.
Defined.

(** ** The keys the validators read *)

(** X9.  [validate_resource("bucket", ...)] reads the keys ["name"] and
    ["region"] and no other: two parameter mappings that agree on these
    two keys give the same result and the same trace in the same world.
    For "vpc" the one key is ["cidr"]. *)
Theorem validate_resource_keys_read (w : World) (p1 p2 : pydict) :
  (lookup "name" p1 = lookup "name" p2 ->
   lookup "region" p1 = lookup "region" p2 ->
   validate_resource w (PStr "bucket") p1 = validate_resource w (PStr "bucket") p2) /\
  (lookup "cidr" p1 = lookup "cidr" p2 ->
   validate_resource w (PStr "vpc") p1 = validate_resource w (PStr "vpc") p2).
Proof.
  split.
  - intros Hn Hr; unfold validate_resource; simpl py_eq; cbv iota.
    unfold validate_object_storage, dict_get; rewrite Hn, Hr; reflexivity.
  - intros Hc; unfold validate_resource; simpl py_eq; cbv iota.
    unfold validate_vpc, dict_get; rewrite Hc; reflexivity.
Qed.

Lemma validate_resource_keys_read_witness :
  validate_resource (world 0 one_bucket_text "" refused) (PStr "bucket")
    [("name", PStr "my-bucket"); ("cidr", PStr "10.0.0.0/24")] =
  validate_resource (world 0 one_bucket_text "" refused) (PStr "bucket")
    [("acl", PStr "private"); ("name", PStr "my-bucket")].
Proof.
  exact (proj1 (validate_resource_keys_read (world 0 one_bucket_text "" refused)
                  [("name", PStr "my-bucket"); ("cidr", PStr "10.0.0.0/24")]
                  [("acl", PStr "private"); ("name", PStr "my-bucket")])
           eq_refl eq_refl).
Defined.

(** ** list_resources *)

Lemma run_cli_spawn_error (w : World) (argv : list string) (e : exn) :
  subprocess_run w argv = SpawnError e ->
  run_cli w (map PStr argv) = (Raises e, [Subprocess argv]).
Proof.
  intro H; unfold run_cli; rewrite str_items_strings; simpl; rewrite H; reflexivity.
Qed.

(** [list_resources] for a command of strings, by what the process does. *)
Lemma list_resources_body (w : World) (argv : list string) :
  try_except
    (output <- run_cli w (map PStr argv) ;;
     ret (PDict [("items", PStr output)]))
    (fun e => ret (PDict [("error", PStr (exn_msg e))])) =
  (match subprocess_run w argv with
   | Exited returncode out err =>
       Returns (PDict [("items", PStr (cli_text returncode out err))])
   | SpawnError e => Returns (PDict [("error", PStr (exn_msg e))])
   end,
   [Subprocess argv]).
Proof.
  destruct (subprocess_run w argv) as [rc out err|e] eqn:Hrun.
  - rewrite (run_cli_exited w argv rc out err Hrun); reflexivity.
  - rewrite (run_cli_spawn_error w argv e Hrun); reflexivity.
Qed.

Lemma list_resources_vpc (w : World) (region : pyvalue) :
  list_resources w (PStr "vpc") region =
  (match subprocess_run w (list_vpc_argv w region) with
   | Exited returncode out err =>
       Returns (PDict [("items", PStr (cli_text returncode out err))])
   | SpawnError e => Returns (PDict [("error", PStr (exn_msg e))])
   end,
   [Subprocess (list_vpc_argv w region)]).
Proof.
  unfold list_resources; simpl py_eq; cbv iota zeta.
  exact (list_resources_body w (list_vpc_argv w region)).
Qed.

Lemma list_resources_bucket (w : World) (region : pyvalue) :
  list_resources w (PStr "bucket") region =
  (match subprocess_run w (list_bucket_argv w region) with
   | Exited returncode out err =>
       Returns (PDict [("items", PStr (cli_text returncode out err))])
   | SpawnError e => Returns (PDict [("error", PStr (exn_msg e))])
   end,
   [Subprocess (list_bucket_argv w region)]).
Proof.
  unfold list_resources; simpl py_eq; cbv iota zeta.
  exact (list_resources_body w (list_bucket_argv w region)).
Qed.

(** X10.  [list_resources] does not raise, for any resource type, any
    region value and any world, a CLI that cannot be started included:
    the result is a mapping [{items: text}] or [{error: message}], and at
    most one subprocess is started. *)
Theorem list_resources_never_raises (w : World) (resource_type region : pyvalue) :
  (is_items (result_of (list_resources w resource_type region)) \/
   is_error (result_of (list_resources w resource_type region))) /\
  (length (trace_of (list_resources w resource_type region)) <= 1)%nat.
Proof.
  destruct (py_eq resource_type (PStr "vpc")) eqn:Hv.
  - apply py_eq_str_true in Hv; subst; rewrite list_resources_vpc.
    split; [|simpl; lia].
    unfold result_of, fst.
    destruct (subprocess_run w _); [left|right]; eexists; reflexivity.
  - destruct (py_eq resource_type (PStr "bucket")) eqn:Hb.
    + apply py_eq_str_true in Hb; subst; rewrite list_resources_bucket.
      split; [|simpl; lia].
      unfold result_of, fst.
      destruct (subprocess_run w _); [left|right]; eexists; reflexivity.
    + unfold list_resources; rewrite Hv, Hb.
      split; [right; eexists; reflexivity|simpl; lia].
Qed.

(** X11.  When the process runs to its end, [list_resources] hands its
    text back under ["items"] as a string, unparsed, and the call is
    scoped by the project id of the environment and by the region as
    formatted by [str].  A non-zero exit is no exception to this: its
    "CLI Error: ..." text comes back under ["items"], not as an error
    mapping. *)
Theorem list_resources_items (w : World) (region : pyvalue)
    (returncode : Z) (out err : string) :
  (subprocess_run w (list_vpc_argv w region) = Exited returncode out err ->
   list_resources w (PStr "vpc") region =
   (Returns (PDict [("items", PStr (cli_text returncode out err))]),
    [Subprocess (list_vpc_argv w region)])) /\
  (subprocess_run w (list_bucket_argv w region) = Exited returncode out err ->
   list_resources w (PStr "bucket") region =
   (Returns (PDict [("items", PStr (cli_text returncode out err))]),
    [Subprocess (list_bucket_argv w region)])) /\
  (returncode <> 0 ->
   startswith (cli_text returncode out err) "CLI Error" = true /\
   ~ is_error (Returns (PDict [("items", PStr (cli_text returncode out err))]))).
Proof.
  split; [|split].
  - intro H; rewrite list_resources_vpc, H; reflexivity.
  - intro H; rewrite list_resources_bucket, H; reflexivity.
  - intro H; split; [now apply cli_text_failure|].
    intros [message Hm]; discriminate.
Qed.

Lemma list_resources_items_witness :
  list_resources (world 1 "" "boom" refused) (PStr "vpc") (PStr "fr-par") =
  (Returns (PDict [("items", PStr "CLI Error: boom")]),
   [Subprocess ["scw"; "vpc"; "vpc"; "list"; "project-id=p-1"; "region=fr-par";
                "--output"; "json"]]).
Proof.
  exact (proj1 (list_resources_items (world 1 "" "boom" refused) (PStr "fr-par") 1 "" "boom")
           eq_refl).
Defined.

(** ** A CLI that cannot be started *)

(** X12.  In a world where starting the process fails with [e] (the
    binary is missing, say), [validate_resource] raises [e] for "vpc" and
    for "bucket" once the guard is passed, while [list_resources] catches
    it and returns [{error: str(e)}]. *)
Theorem spawn_error_raised_or_caught (w : World) (e : exn) (params : pydict)
    (region : pyvalue) :
  (forall argv, subprocess_run w argv = SpawnError e) ->
  (truthy (dict_get params "cidr" PNone) = true ->
   result_of (validate_resource w (PStr "vpc") params) = Raises e) /\
  (truthy (dict_get params "name" PNone) = true ->
   (exists text, dict_get params "region" (PStr "fr-par") = PStr text) ->
   result_of (validate_resource w (PStr "bucket") params) = Raises e) /\
  result_of (list_resources w (PStr "vpc") region) =
    Returns (PDict [("error", PStr (exn_msg e))]) /\
  result_of (list_resources w (PStr "bucket") region) =
    Returns (PDict [("error", PStr (exn_msg e))]).
Proof.
  intro Hspawn; split; [|split; [|split]].
  - intro Ht; unfold validate_resource; simpl py_eq; cbv iota.
    unfold validate_vpc; rewrite Ht; simpl negb; cbv iota zeta.
    rewrite vpc_command_strings, (run_cli_spawn_error w _ e (Hspawn _)); reflexivity.
  - intros Ht [text Hreg]; unfold validate_resource; simpl py_eq; cbv iota.
    unfold validate_object_storage; rewrite Ht, Hreg; simpl negb; cbv iota zeta.
    change (bucket_command (PStr text)) with (map PStr (bucket_argv text)).
    rewrite (run_cli_spawn_error w _ e (Hspawn _)); reflexivity.
  - rewrite list_resources_vpc, Hspawn; reflexivity.
  - rewrite list_resources_bucket, Hspawn; reflexivity.
Qed.

Lemma spawn_error_raised_or_caught_witness :
  result_of (validate_resource (no_cli not_found) (PStr "vpc")
                               [("cidr", PStr "10.0.0.0/24")]) = Raises not_found /\
  result_of (list_resources (no_cli not_found) (PStr "vpc") (PStr "fr-par")) =
  Returns (PDict [("error", PStr "[Errno 2] No such file or directory: 'scw'")]).
Proof.
  pose proof (spawn_error_raised_or_caught (no_cli not_found) not_found
                [("cidr", PStr "10.0.0.0/24")] (PStr "fr-par") (fun _ => eq_refl)) as H.
  split.
  - exact (proj1 H eq_refl).
  - exact (proj1 (proj2 (proj2 H))).
Defined.

(* ================================================================== *)
(** * Further properties of the completion client                      *)
(* ================================================================== *)

(** X13.  One call of [_call] sends exactly one request, whether the call
    returns or raises (there is no retry): to the configured endpoint,
    with the key in the [Authorization] header as "Bearer <key>", and with
    the fixed system text first and the prompt, unchanged, as the user
    message. *)
Theorem call_sends_one_request (w : World) (self : DeepSeekLLM.t) (prompt : string) :
  trace_of (DeepSeekLLM._call w self prompt) = [request_of self prompt].
Proof.
  unfold DeepSeekLLM._call; cbv zeta.
  unfold trace_of, bind, tell, lift, raise, request_of.
  destruct (requests_post w _ _ _) as [resp|e]; [|reflexivity].
  destruct (obind (raise_for_status resp) _); reflexivity.
Qed.

Lemma raise_for_status_text (resp : Response) :
  is_http_error (status_code resp) = true ->
  raise_for_status resp = Raises (Exn HTTPError (http_error_text resp)).
Proof.
  unfold is_http_error, raise_for_status, http_error_text; intro H.
  apply andb_true_iff in H; destruct H as [Hlo Hhi]; rewrite Hlo; simpl.
  destruct (status_code resp <? 500) eqn:H5; [reflexivity|].
  assert (H500 : (500 <=? status_code resp) = true)
    by (apply Z.leb_le; apply Z.ltb_ge in H5; exact H5).
  rewrite H500, Hhi; reflexivity.
Qed.

(** X14.  The status is checked before the body is read: an answer with a
    4xx or 5xx status makes [_call] raise the [HTTPError] with the
    "<code> Client Error: ..." (4xx) or "<code> Server Error: ..." (5xx)
    message, whatever the body holds, a well-formed completion
    included. *)
Theorem call_error_status_wins (w : World) (self : DeepSeekLLM.t) (prompt : string)
    (resp : Response) :
  requests_post w (DeepSeekLLM.endpoint self) (DeepSeekLLM.headers_of self)
                (DeepSeekLLM.payload_of self prompt) = Responded resp ->
  is_http_error (status_code resp) = true ->
  result_of (DeepSeekLLM._call w self prompt) =
  Raises (Exn HTTPError (http_error_text resp)).
Proof.
  intros Hpost Hstatus.
  rewrite call_result, Hpost, (raise_for_status_text resp Hstatus); reflexivity.
Qed.

Lemma call_error_status_wins_witness :
  result_of (DeepSeekLLM._call
               (world 0 "" "" (answer 503 "Service Unavailable"
                                      (Returns (completion_response "resource {}"))))
               sample_llm "hi") =
  Raises (Exn HTTPError
            "503 Server Error: Service Unavailable for url: https://llm.example/v1/chat").
Proof.
  exact (call_error_status_wins
           (world 0 "" "" (answer 503 "Service Unavailable"
                                  (Returns (completion_response "resource {}"))))
           sample_llm "hi"
           {| status_code := 503; reason := "Service Unavailable";
              url := "https://llm.example/v1/chat";
              json := Returns (completion_response "resource {}") |}
           eq_refl eq_refl).
Defined.

(** X15.  [generate_terraform_code] reads its three settings from the
    environment at every call.  With all three present it sends exactly
    one request, built from them with temperature 0.3 and 512 tokens,
    whose user message is the fixed instruction, an empty line and the
    prompt.  With any of them absent it raises the validation error of the
    client's constructor and sends nothing. *)
Theorem generate_terraform_code_request (w : World) (prompt : string) :
  (forall m ep k,
      getenv w "MODEL_NAME" = Some m ->
      getenv w "INFERENCE_ENDPOINT" = Some ep ->
      getenv w "SCW_SECRET_KEY" = Some k ->
      trace_of (generate_terraform_code w prompt) =
      [HttpPost ep
         [("Authorization", "Bearer " ++ k); ("Content-Type", "application/json")]
         {| p_model := m;
            p_messages :=
              [ {| role := "system"; content := DeepSeekLLM.system_prompt |};
                {| role := "user"; content := instruction ++ nl ++ nl ++ prompt |} ];
            p_temperature := 3 # 10;
            p_max_tokens := 512 |}]) /\
  (getenv w "MODEL_NAME" = None \/ getenv w "INFERENCE_ENDPOINT" = None \/
   getenv w "SCW_SECRET_KEY" = None ->
   trace_of (generate_terraform_code w prompt) = [] /\
   exists e, result_of (generate_terraform_code w prompt) = Raises e /\
             exn_cls e = ValidationError).
Proof.
  split.
  - intros m ep k Hm He Hk.
    rewrite (generate_terraform_code_configured w prompt m ep k Hm He Hk).
    rewrite LLM_call_trace.
    unfold DeepSeekLLM._call; cbv zeta.
    unfold trace_of, bind, tell, lift, raise.
    destruct (requests_post w _ _ _) as [resp|e]; [|reflexivity].
    destruct (obind (raise_for_status resp) _); reflexivity.
  - intro H; rewrite (generate_terraform_code_unconfigured w prompt H).
    split; [reflexivity|eexists; split; reflexivity].
Qed.

Lemma generate_terraform_code_request_witness :
  trace_of (generate_terraform_code bare "a vpc") = [] /\
  exists e, result_of (generate_terraform_code bare "a vpc") = Raises e /\
            exn_cls e = ValidationError.
Proof.
  apply (proj2 (generate_terraform_code_request bare "a vpc")).
  left; reflexivity.
Defined.

(* ================================================================== *)
(** * Properties of the cached agent and of the form handler           *)
(* ================================================================== *)

(** X16.  Once [get_agent] has returned an agent, the global holds it and
    every later call returns that same agent and leaves the global as it
    is, in whatever world: the environment is not read again, so a change
    of the settings after the first call has no effect. *)
Theorem get_agent_cached (w w' : World) (cache cache' : option Agent) (agent : Agent) :
  get_agent w cache = (Returns agent, cache') ->
  cache' = Some agent /\
  get_agent w' cache' = (Returns agent, cache').
Proof.
  unfold get_agent; destruct cache as [a|].
  - intro H; inversion H; subst; split; reflexivity.
  - destruct (DeepSeekLLM.new _ _ _) as [llm|e]; intro H; inversion H; subst.
    split; reflexivity.
Qed.

Lemma get_agent_cached_witness :
  exists agent,
    get_agent (world 0 "" "" refused) None = (Returns agent, Some agent) /\
    get_agent bare (Some agent) = (Returns agent, Some agent).
Proof.
  eexists; split; [reflexivity|].
  refine (proj2 (get_agent_cached (world 0 "" "" refused) bare None _ _ eq_refl)).
Defined.

(** X17.  A first call of [get_agent] that fails, which it does only
    when one of the three settings is absent, leaves the global empty, so
    the failure is not remembered: a later call in a world that has the
    settings builds the agent, around a client with those settings, with
    the three registered tools and an iteration budget of 3. *)
Theorem get_agent_failure_not_cached (w w' : World) (e : exn) (cache : option Agent)
    (m ep k : string) :
  get_agent w None = (Raises e, cache) ->
  getenv w' "MODEL_NAME" = Some m ->
  getenv w' "INFERENCE_ENDPOINT" = Some ep ->
  getenv w' "SCW_SECRET_KEY" = Some k ->
  (getenv w "MODEL_NAME" = None \/ getenv w "INFERENCE_ENDPOINT" = None \/
   getenv w "SCW_SECRET_KEY" = None) /\
  cache = None /\
  exists agent,
    get_agent w' cache = (Returns agent, Some agent) /\
    agent_tools agent = ["validate_resource"; "list_resources"; "generate_terraform"] /\
    agent_max_iterations agent = 3%nat /\
    DeepSeekLLM.model (agent_llm agent) = m /\
    DeepSeekLLM.endpoint (agent_llm agent) = ep /\
    DeepSeekLLM.api_key (agent_llm agent) = k.
Proof.
  unfold get_agent at 1, DeepSeekLLM.new.
  intros H Hm He Hk.
  destruct (getenv w "MODEL_NAME") as [m0|];
    [destruct (getenv w "INFERENCE_ENDPOINT") as [ep0|];
     [destruct (getenv w "SCW_SECRET_KEY") as [k0|]|]|];
    inversion H; subst.
  all: split; [auto|split; [reflexivity|]].
  all: unfold get_agent, DeepSeekLLM.new; rewrite Hm, He, Hk.
  all: eexists; split; [reflexivity|repeat split].
Qed.

Lemma get_agent_failure_not_cached_witness :
  exists agent,
    get_agent (world 0 "" "" refused) None = (Returns agent, Some agent) /\
    agent_max_iterations agent = 3%nat.
Proof.
  destruct (proj2 (proj2 (get_agent_failure_not_cached bare (world 0 "" "" refused)
              (Exn ValidationError "validation error for DeepSeekLLM") None
              "deepseek" "https://llm.example/v1/chat" "secret"
              eq_refl eq_refl eq_refl eq_refl)))
    as (agent & Hget & _ & Hmax & _).
  exists agent; split; assumption.
Defined.

(** X18.  [process_form] does not raise, whatever the agent does: it
    always returns the "ui.html" page with the prompt echoed, and the
    page shows the agent's text when the agent returns a string, the JSON
    dump of any other result, and "Error: " followed by the message when
    the agent (or the dump) raises.  It does nothing to the world beyond
    what the agent run does. *)
Theorem process_form_never_raises (run_agent : pyvalue -> M pyvalue)
    (json_dumps : pyvalue -> outcome string) (prompt : string) :
  result_of (main.process_form run_agent json_dumps prompt) =
  Returns {| main.template := "ui.html";
             main.context_prompt := prompt;
             main.context_iac_code :=
               match result_of (run_agent (PStr prompt)) with
               | Returns (PStr text) => text
               | Returns result =>
                   match json_dumps result with
                   | Returns text => text
                   | Raises e => "Error: " ++ exn_msg e
                   end
               | Raises e => "Error: " ++ exn_msg e
               end |} /\
  trace_of (main.process_form run_agent json_dumps prompt) =
  trace_of (run_agent (PStr prompt)).
Proof.
  unfold main.process_form, result_of, trace_of.
  destruct (run_agent (PStr prompt)) as [[result|e] t]; simpl.
  - destruct result; simpl;
      try (destruct (json_dumps _); simpl);
      rewrite ?app_nil_r; split; reflexivity.
  - rewrite ?app_nil_r; split; reflexivity.
Qed.

(** X19.  With a setting missing and no agent built yet, a prompt posted
    to the form comes back as the page that shows "Error: " and the
    message of the constructor's validation error; the agent is not run,
    nothing is sent or started, and the global stays empty. *)
Theorem process_form_unconfigured (w : World) (agent_run : Agent -> pyvalue -> M pyvalue)
    (json_dumps : pyvalue -> outcome string) (prompt : string) :
  getenv w "MODEL_NAME" = None \/ getenv w "INFERENCE_ENDPOINT" = None \/
  getenv w "SCW_SECRET_KEY" = None ->
  exists e,
    exn_cls e = ValidationError /\
    main.process_form (fun p => fst (run_agent w agent_run None p)) json_dumps prompt =
    (Returns {| main.template := "ui.html";
                main.context_prompt := prompt;
                main.context_iac_code := "Error: " ++ exn_msg e |}, []) /\
    snd (run_agent w agent_run None (PStr prompt)) = None.
Proof.
  intro H.
  exists (Exn ValidationError "validation error for DeepSeekLLM").
  split; [reflexivity|].
  assert (Hget : get_agent w None =
                 (Raises (Exn ValidationError "validation error for DeepSeekLLM"), None)).
  { unfold get_agent, DeepSeekLLM.new.
    destruct H as [H|[H|H]]; rewrite H;
      repeat match goal with
      | |- context [match getenv ?w ?n with _ => _ end] => destruct (getenv w n)
      end; reflexivity. }
  unfold main.process_form, run_agent; rewrite Hget; split; reflexivity.
Qed.

Lemma process_form_unconfigured_witness :
  exists e,
    exn_cls e = ValidationError /\
    main.process_form (fun p => fst (run_agent bare (fun _ _ => ret (PStr "done")) None p))
                      (fun _ => Returns "{}") "create a vpc" =
    (Returns {| main.template := "ui.html";
                main.context_prompt := "create a vpc";
                main.context_iac_code := "Error: " ++ exn_msg e |}, []) /\
    snd (run_agent bare (fun _ _ => ret (PStr "done")) None (PStr "create a vpc")) = None.
Proof.
  apply (process_form_unconfigured bare (fun _ _ => ret (PStr "done"))
           (fun _ => Returns "{}") "create a vpc").
  left; reflexivity.
Defined.
